(** * honest-impressions: the moderation-gated anonymous relay of [src/index.js]

    A shallow embedding of the event handlers of [index.js] (the review-card
    publisher, the accept/deny decision handlers, the admin delete shortcut,
    the reply shortcut and the modal submission handler) over an explicit
    model of the [messages] table and of the chat-platform calls they make,
    followed by the properties of the moderation lifecycle.

    - The store is the list of rows of [messages] with its SERIAL sequence;
      the four SQL statements of the file are functions on it.
    - A handler is a computation in a monad that reads the environment,
      threads the world (store and effect log) and may throw, so that
      [try]/[catch] and the order of statements and calls are those of the
      source.
    - What the outside does is a parameter: every call to the platform and
      every statement may fail, as the environment decides.
    - Handlers run one after the other; the interleaving of two handlers at
      their [await]s is not modelled. *)

From Stdlib Require Import ZArith List String Ascii Bool Lia DecimalString.
Import ListNotations.
Local Open Scope string_scope.
Local Open Scope Z_scope.

(** ** [crypto.createHash("md5")]: the digest behind [user_hash]

    [index.js] fingerprints a submitter with Node's
    [crypto.createHash("md5").update(id).digest("hex")].  The digest is
    RFC 1321 MD5 over the bytes of the string, rendered as lower-case
    hexadecimal.  32-bit words are [Z] values reduced modulo [2^32]. *)
Module Md5.

Definition w32 (x : Z) : Z := x mod 2 ^ 32.

Definition add32 (x y : Z) : Z := w32 (x + y).

Definition not32 (x : Z) : Z := Z.lxor x 0xffffffff.

Definition rotl32 (x c : Z) : Z :=
  w32 (Z.lor (Z.shiftl x c) (Z.shiftr x (32 - c))).

(** The per-round shift amounts. *)
Definition s_table : list Z :=
  [ 7; 12; 17; 22;  7; 12; 17; 22;  7; 12; 17; 22;  7; 12; 17; 22;
    5;  9; 14; 20;  5;  9; 14; 20;  5;  9; 14; 20;  5;  9; 14; 20;
    4; 11; 16; 23;  4; 11; 16; 23;  4; 11; 16; 23;  4; 11; 16; 23;
    6; 10; 15; 21;  6; 10; 15; 21;  6; 10; 15; 21;  6; 10; 15; 21 ].

(** [K[i] = floor(2^32 * abs(sin(i + 1)))]. *)
Definition K_table : list Z :=
  [ 0xd76aa478; 0xe8c7b756; 0x242070db; 0xc1bdceee;
    0xf57c0faf; 0x4787c62a; 0xa8304613; 0xfd469501;
    0x698098d8; 0x8b44f7af; 0xffff5bb1; 0x895cd7be;
    0x6b901122; 0xfd987193; 0xa679438e; 0x49b40821;
    0xf61e2562; 0xc040b340; 0x265e5a51; 0xe9b6c7aa;
    0xd62f105d; 0x02441453; 0xd8a1e681; 0xe7d3fbc8;
    0x21e1cde6; 0xc33707d6; 0xf4d50d87; 0x455a14ed;
    0xa9e3e905; 0xfcefa3f8; 0x676f02d9; 0x8d2a4c8a;
    0xfffa3942; 0x8771f681; 0x6d9d6122; 0xfde5380c;
    0xa4beea44; 0x4bdecfa9; 0xf6bb4b60; 0xbebfbc70;
    0x289b7ec6; 0xeaa127fa; 0xd4ef3085; 0x04881d05;
    0xd9d4d039; 0xe6db99e5; 0x1fa27cf8; 0xc4ac5665;
    0xf4292244; 0x432aff97; 0xab9423a7; 0xfc93a039;
    0x655b59c3; 0x8f0ccc92; 0xffeff47d; 0x85845dd1;
    0x6fa87e4f; 0xfe2ce6e0; 0xa3014314; 0x4e0811a1;
    0xf7537e82; 0xbd3af235; 0x2ad7d2bb; 0xeb86d391 ].

(** The running digest: the four words A, B, C, D. *)
Record digest := Digest { dA : Z; dB : Z; dC : Z; dD : Z }.

Definition init_digest : digest :=
  Digest 0x67452301 0xefcdab89 0x98badcfe 0x10325476.

(** The bytes of a string, as the UTF-8 buffer [update] hashes. *)
Fixpoint bytes_of_string (s : string) : list Z :=
  match s with
  | EmptyString => []
  | String c s' => Z.of_nat (nat_of_ascii c) :: bytes_of_string s'
  end.

(** [n]-byte little-endian rendering of [x]. *)
Fixpoint le_bytes (n : nat) (x : Z) : list Z :=
  match n with
  | O => []
  | S n' => x mod 256 :: le_bytes n' (x / 256)
  end.

Fixpoint le_word (bs : list Z) : Z :=
  match bs with
  | [] => 0
  | b :: bs' => b + 256 * le_word bs'
  end.

(** Padding: a [0x80] byte, zeros up to 56 modulo 64, then the bit length
    as a 64-bit little-endian integer. *)
Definition pad (msg : list Z) : list Z :=
  let len := Z.of_nat (List.length msg) in
  let zeros := Z.to_nat ((55 - len) mod 64) in
  (msg ++ [0x80] ++ repeat 0 zeros ++ le_bytes 8 ((8 * len) mod 2 ^ 64))%list.

(** The sixteen little-endian words of a 64-byte block. *)
Fixpoint words_of (n : nat) (bs : list Z) : list Z :=
  match n with
  | O => []
  | S n' => le_word (firstn 4 bs) :: words_of n' (skipn 4 bs)
  end.

Definition round_fg (i b c d : Z) : Z * Z :=
  if i <? 16 then (Z.lor (Z.land b c) (Z.land (not32 b) d), i)
  else if i <? 32 then (Z.lor (Z.land d b) (Z.land (not32 d) c), (5 * i + 1) mod 16)
  else if i <? 48 then (Z.lxor (Z.lxor b c) d, (3 * i + 5) mod 16)
  else (Z.lxor c (Z.lor b (not32 d)), (7 * i) mod 16).

Definition round (M : list Z) (st : digest) (i : Z) : digest :=
  let '(Digest a b c d) := st in
  let '(f, g) := round_fg i b c d in
  let f' := add32 (add32 (add32 f a) (nth (Z.to_nat i) K_table 0))
                  (nth (Z.to_nat g) M 0) in
  Digest d (add32 b (rotl32 f' (nth (Z.to_nat i) s_table 0))) b c.

Definition rounds : list Z := map Z.of_nat (seq 0 64).

Definition process_block (st : digest) (block : list Z) : digest :=
  let M := words_of 16 block in
  let '(Digest a b c d) := fold_left (round M) rounds st in
  Digest (add32 (dA st) a) (add32 (dB st) b) (add32 (dC st) c) (add32 (dD st) d).

Fixpoint process_blocks (n : nat) (st : digest) (bs : list Z) : digest :=
  match n with
  | O => st
  | S n' => process_blocks n' (process_block st (firstn 64 bs)) (skipn 64 bs)
  end.

Definition md5_digest (msg : list Z) : digest :=
  let p := pad msg in
  process_blocks (List.length p / 64) init_digest p.

Definition digest_bytes (d : digest) : list Z :=
  (le_bytes 4 (dA d) ++ le_bytes 4 (dB d) ++ le_bytes 4 (dC d) ++ le_bytes 4 (dD d))%list.

Definition hex_digit (x : Z) : ascii :=
  ascii_of_nat (Z.to_nat (if x <? 10 then 48 + x else 87 + x)).

Fixpoint hex_of_bytes (bs : list Z) : string :=
  match bs with
  | [] => EmptyString
  | b :: bs' => String (hex_digit (b / 16)) (String (hex_digit (b mod 16)) (hex_of_bytes bs'))
  end.

(** [crypto.createHash("md5").update(s).digest("hex")]. *)
Definition md5_hex (s : string) : string :=
  hex_of_bytes (digest_bytes (md5_digest (bytes_of_string s))).

End Md5.

(** ** JavaScript and PostgreSQL values *)

(** A JavaScript number as [parseInt] returns it: [NaN] or an integer. *)
Inductive jsnum := NaN | Num (z : Z).

(** [n.toString()] of an integer. *)
Definition toString (z : Z) : string := NilZero.string_of_int (Z.to_int z).

(** [a || b] on an environment variable: unset and the empty string are
    both falsy. *)
Definition js_or (a : option string) (b : string) : string :=
  match a with
  | Some s => if String.eqb s "" then b else s
  | None => b
  end.

(** [Array.prototype.includes] on an array of strings. *)
Definition includes (l : list string) (x : string) : bool :=
  existsb (String.eqb x) l.

(** [s.split(sep)] for a one-character separator: never empty. *)
Fixpoint split (sep : ascii) (s : string) : list string :=
  match s with
  | EmptyString => [EmptyString]
  | String c s' =>
      if Ascii.eqb c sep then EmptyString :: split sep s'
      else match split sep s' with
           | [] => [String c EmptyString]
           | p :: ps => String c p :: ps
           end
  end.

(** The line feed of a template literal's [\n]. *)
Definition nl : string := String (ascii_of_nat 10) EmptyString.

(** The value an [integer] column is compared with: the driver sends the
    number as text and the server reads it back as an [int4]; [NaN] and
    values outside the 32-bit range are refused. *)
Definition pg_int4 (x : jsnum) : option Z :=
  match x with
  | NaN => None
  | Num z => if (- 2 ^ 31 <=? z) && (z <? 2 ^ 31) then Some z else None
  end.

(** [VARCHAR(n)] counts characters, not bytes: in a UTF-8 string the
    continuation bytes [10xxxxxx] belong to the character before them. *)
Definition is_continuation (c : ascii) : bool :=
  let n := nat_of_ascii c in (128 <=? n)%nat && (n <? 192)%nat.

(** The continuation bytes [s] starts with, and the rest. *)
Fixpoint take_cont (s : string) : string * string :=
  match s with
  | EmptyString => (EmptyString, EmptyString)
  | String c s' =>
      if is_continuation c
      then let '(a, b) := take_cont s' in (String c a, b)
      else (EmptyString, s)
  end.

(** The first [n] characters of [s] and what follows them. *)
Fixpoint take_chars (n : nat) (s : string) : string * string :=
  match n, s with
  | O, _ => (EmptyString, s)
  | S _, EmptyString => (EmptyString, EmptyString)
  | S n', String c s' =>
      let '(k, rest) := take_cont s' in
      let '(a, b) := take_chars n' rest in
      (String c (k ++ a), b)
  end.

Fixpoint all_spaces (s : string) : bool :=
  match s with
  | EmptyString => true
  | String c s' => Ascii.eqb c " "%char && all_spaces s'
  end.

(** Assignment to a [VARCHAR(n)] column: a longer value is an error unless
    the excess is all spaces, which are cut off. *)
Definition varchar (n : nat) (s : string) : option string :=
  let '(a, b) := take_chars n s in
  if all_spaces b then Some a else None.

(** ** The [messages] table *)

(** A row of [messages], columns as [initDatabase] creates them. *)
Record Row := mkRow {
  id : Z;
  user_hash : string;
  message : string;
  status : string;
  created_at : Z;
  reviewed_at : option Z;
  review_message_ts : option string;
  thread_ts : option string;
  channel_id : option string
}.

(** ** Calls to the chat platform *)

Record button := mkButton {
  btn_text : string;
  btn_style : string;
  btn_action_id : string;
  btn_value : string
}.

Inductive block :=
| section_mrkdwn (text : string)
| actions (elements : list button).

(** The modal [reply_impression] opens. *)
Record modal := mkModal {
  callback_id : string;
  title : string;
  input_block_id : string;
  input_label : string;
  input_action_id : string;
  input_multiline : bool;
  submit : string;
  private_metadata : string
}.

Inductive slack_call :=
| chat_postMessage (token channel : string) (thread : option string)
                   (text : string) (blocks : list block)
| chat_update (token channel ts text : string) (blocks : list block)
| chat_postEphemeral (token : string) (channel : option string)
                     (user text : string)
| chat_delete (token ts channel : string)
| views_open (trigger_id : string) (view : modal).

(** What the platform answers: a result carrying the message [ts], or a
    rejected promise with the error's message. *)
Inductive reply := ok (ts : string) | failed (msg : string).

(** What a handler does that is visible outside the store. *)
Inductive effect :=
| Ack
| Slack (c : slack_call) (r : reply)
| ConsoleError (label : string) (msg : string).

(** ** The environment and the world *)

(** Configuration ([process.env], and the deny-list of [banList.json]),
    the built-in [parseInt] (every property holds whatever it returns), and
    the behaviour of the outside: what the platform answers to the call
    logged at a position of the effect log, which statement of the store
    fails and with what message, the driver's message for a parameter that
    is no [int4] or no [VARCHAR(n)], and the clock. *)
Record Env := mkEnv {
  SLACK_BOT_TOKEN : string;
  REVIEW_CHANNEL_ID : string;
  HONEST_IMPRESSIONS_CHANNEL_ID : option string;
  banList : list string;
  parseInt : string -> jsnum;
  slack_api : nat -> slack_call -> reply;
  pg_fault : nat -> option string;
  pg_int4_error : jsnum -> string;
  pg_varchar_error : nat -> string;
  NOW : nat -> Z
}.

Record World := mkWorld {
  tbl : list Row;                (* rows of messages, in insertion order *)
  messages_id_seq : Z;           (* next value of the SERIAL sequence *)
  stmts : nat;                   (* statements sent to the store so far *)
  effects : list effect          (* the effect log, oldest first *)
}.

Definition init_world : World := mkWorld [] 1 0 [].

(** ** The handler monad: environment, world, exceptions *)

Inductive outcome (A : Type) :=
| Return (a : A)
| Throw (msg : string).
Arguments Return {A} a.
Arguments Throw {A} msg.

Definition M (A : Type) : Type := Env -> World -> outcome A * World.

Definition ret {A} (a : A) : M A := fun _ w => (Return a, w).

Definition bind {A B} (m : M A) (k : A -> M B) : M B :=
  fun env w =>
    match m env w with
    | (Return a, w') => k a env w'
    | (Throw e, w') => (Throw e, w')
    end.

Definition throw {A} (msg : string) : M A := fun _ w => (Throw msg, w).

(** [try { m } catch (error) { h(error.message) }]. *)
Definition try_catch {A} (m : M A) (h : string -> M A) : M A :=
  fun env w =>
    match m env w with
    | (Return a, w') => (Return a, w')
    | (Throw e, w') => h e env w'
    end.

Definition ask : M Env := fun env w => (Return env, w).

Notation "x <- m ;; k" := (bind m (fun x => k))
  (at level 61, m at next level, right associativity).
Notation "m ;;; k" := (bind m (fun _ => k))
  (at level 61, right associativity).

Definition add_effect (e : effect) (w : World) : World :=
  mkWorld (tbl w) (messages_id_seq w) (stmts w) (effects w ++ [e])%list.

Definition log (e : effect) : M unit :=
  fun _ w => (Return tt, add_effect e w).

Definition ack : M unit := log Ack.

Definition console_error (label msg : string) : M unit :=
  log (ConsoleError label msg).

(** The result of an awaited call: its [ts], or the rejection thrown. *)
Definition await (r : reply) : outcome string :=
  match r with
  | ok ts => Return ts
  | failed msg => Throw msg
  end.

(** One call to the platform, logged with its answer. *)
Definition slack (c : slack_call) : M string :=
  fun env w =>
    let r := slack_api env (List.length (effects w)) c in
    (await r, add_effect (Slack c r) w).

(** ** [pool.query]: the four statements of [index.js] *)

(** A statement reaches the store: it is counted, and it fails when the
    environment says so; its number also indexes the clock. *)
Definition pg_statement : M nat :=
  fun env w =>
    let n := stmts w in
    (match pg_fault env n with
     | Some msg => Throw msg
     | None => Return n
     end,
     mkWorld (tbl w) (messages_id_seq w) (S n) (effects w)).

Definition get_tbl : M (list Row) := fun _ w => (Return (tbl w), w).

Definition put_tbl (t : list Row) : M unit :=
  fun _ w => (Return tt, mkWorld t (messages_id_seq w) (stmts w) (effects w)).

(** [nextval] of the SERIAL sequence behind [id]; the value is consumed
    even when the statement fails afterwards. *)
Definition nextval : M Z :=
  fun env w =>
    let v := messages_id_seq w in
    if v <? 2 ^ 31
    then (Return v, mkWorld (tbl w) (v + 1) (stmts w) (effects w))
    else (Throw (pg_int4_error env (Num v)), w).

(** [SELECT * FROM messages WHERE id = $1]. *)
Definition select_by_id (x : jsnum) : M (list Row) :=
  _ <- pg_statement ;;
  env <- ask ;;
  match pg_int4 x with
  | None => throw (pg_int4_error env x)
  | Some z => t <- get_tbl ;; ret (filter (fun r => id r =? z) t)
  end.

(** [UPDATE ... WHERE id = z]: every row with that [id] is rewritten. *)
Definition update_where (z : Z) (f : Row -> Row) (t : list Row) : list Row :=
  map (fun r => if id r =? z then f r else r) t.

Definition set_status (st : string) (now : Z) (r : Row) : Row :=
  mkRow (id r) (user_hash r) (message r) st (created_at r) (Some now)
        (review_message_ts r) (thread_ts r) (channel_id r).

(** [UPDATE messages SET status = $1, reviewed_at = NOW() WHERE id = $2]:
    one statement writes both columns of every matching row. *)
Definition update_status (st : string) (x : jsnum) : M unit :=
  n <- pg_statement ;;
  env <- ask ;;
  match pg_int4 x, varchar 20 st with
  | None, _ => throw (pg_int4_error env x)
  | Some _, None => throw (pg_varchar_error env 20)
  | Some z, Some st' =>
      t <- get_tbl ;;
      put_tbl (update_where z (set_status st' (NOW env n)) t)
  end.

Definition set_review_message_ts (ts : string) (r : Row) : Row :=
  mkRow (id r) (user_hash r) (message r) (status r) (created_at r)
        (reviewed_at r) (Some ts) (thread_ts r) (channel_id r).

(** [UPDATE messages SET review_message_ts = $1 WHERE id = $2]. *)
Definition update_review_message_ts (ts : string) (x : jsnum) : M unit :=
  _ <- pg_statement ;;
  env <- ask ;;
  match pg_int4 x, varchar 50 ts with
  | None, _ => throw (pg_int4_error env x)
  | Some _, None => throw (pg_varchar_error env 50)
  | Some z, Some ts' =>
      t <- get_tbl ;;
      put_tbl (update_where z (set_review_message_ts ts') t)
  end.

(** An optional [VARCHAR(n)] parameter: [undefined] is stored as NULL. *)
Definition varchar_opt (n : nat) (s : option string) : option (option string) :=
  match s with
  | None => Some None
  | Some v => option_map Some (varchar n v)
  end.

(** [INSERT INTO messages (user_hash, message, status, thread_ts,
    channel_id) VALUES ($1, $2, $3, $4, $5) RETURNING id]: [id] comes from
    the sequence, [created_at] from its default, and [reviewed_at] and
    [review_message_ts] stay NULL. *)
Definition insert_message (userHash msg st threadTs : string)
                          (channelId : option string) : M Z :=
  n <- pg_statement ;;
  env <- ask ;;
  newid <- nextval ;;
  match varchar 32 userHash, varchar 20 st,
        varchar 50 threadTs, varchar_opt 50 channelId with
  | Some h, Some st', Some th, Some ch =>
      t <- get_tbl ;;
      put_tbl (t ++ [mkRow newid h msg st' (NOW env n) None None (Some th) ch])%list ;;;
      ret newid
  | None, _, _, _ => throw (pg_varchar_error env 32)
  | _, None, _, _ => throw (pg_varchar_error env 20)
  | _, _, _, _ => throw (pg_varchar_error env 50)
  end.

(** ** Request payloads *)

(** The fields of [body] the handlers read. *)
Record Body := mkBody {
  body_user_id : string;          (* body.user.id *)
  body_channel_id : string;       (* body.channel.id *)
  body_message_ts : string;       (* body.message.ts *)
  body_message_ts_top : string;   (* body.message_ts, as a template prints it *)
  body_trigger_id : string;       (* body.trigger_id *)
  body_action_value : string      (* body.actions[0].value *)
}.

(** The fields of [view] the submission handler reads. *)
Record View := mkView {
  view_dreamy_input_value : string;  (* view.state.values.input_c.dreamy_input.value *)
  view_private_metadata : string     (* view.private_metadata *)
}.

(** ** The handlers *)

(** [sendToReviewChannel(message, hashedUser, messageId)]. *)
Definition sendToReviewChannel (msg hashedUser : string) (messageId : Z) : M string :=
  env <- ask ;;
  result_ts <- slack (chat_postMessage
    (SLACK_BOT_TOKEN env)
    (REVIEW_CHANNEL_ID env)
    None
    ("Pending impression from (" ++ substring 0 8 hashedUser ++ "):" ++ nl ++ ">" ++ msg)
    [ section_mrkdwn ("*Pending Impression*" ++ nl ++ "From: `"
                      ++ substring 0 8 hashedUser ++ "...`" ++ nl ++ nl ++ ">" ++ msg);
      actions [ mkButton "✅ Accept" "primary" "accept_impression" (toString messageId);
                mkButton "❌ Deny" "danger" "deny_impression" (toString messageId) ] ]) ;;
  update_review_message_ts result_ts (Num messageId) ;;;
  ret result_ts.

(** The channel accepted impressions are posted to. *)
Definition honest_channel (env : Env) : string :=
  js_or (HONEST_IMPRESSIONS_CHANNEL_ID env) "C029QJD8M0D".

(** [app.action("accept_impression", ...)]. *)
Definition accept_impression (body : Body) : M unit :=
  ack ;;;
  env <- ask ;;
  let messageId := parseInt env (body_action_value body) in
  try_catch
    (result <- select_by_id messageId ;;
     match result with
     | [] => throw "Message not found"
     | messageData :: _ =>
         update_status "accepted" messageId ;;;
         let channelId := honest_channel env in
         _ <- slack (chat_postMessage (SLACK_BOT_TOKEN env) channelId
                       (thread_ts messageData) (message messageData) []) ;;
         _ <- slack (chat_update (SLACK_BOT_TOKEN env)
                       (body_channel_id body) (body_message_ts body)
                       ("✅ Accepted by <@" ++ body_user_id body ++ ">")
                       [ section_mrkdwn (message messageData ++ nl ++ nl
                            ++ "✅ *Accepted* by <@" ++ body_user_id body ++ ">") ]) ;;
         ret tt
     end)
    (fun error =>
       console_error "Error accepting impression:" error ;;;
       _ <- slack (chat_postEphemeral (SLACK_BOT_TOKEN env)
                     (Some (body_channel_id body)) (body_user_id body)
                     ("Error accepting impression: " ++ error)) ;;
       ret tt).

(** [app.action("deny_impression", ...)]. *)
Definition deny_impression (body : Body) : M unit :=
  ack ;;;
  env <- ask ;;
  let messageId := parseInt env (body_action_value body) in
  try_catch
    (result <- select_by_id messageId ;;
     match result with
     | [] => throw "Message not found"
     | messageData :: _ =>
         update_status "denied" messageId ;;;
         _ <- slack (chat_update (SLACK_BOT_TOKEN env)
                       (body_channel_id body) (body_message_ts body)
                       ("❌ Denied by <@" ++ body_user_id body ++ ">")
                       [ section_mrkdwn ("~" ++ message messageData ++ "~" ++ nl ++ nl
                            ++ "❌ *Denied* by <@" ++ body_user_id body ++ ">") ]) ;;
         ret tt
     end)
    (fun error =>
       console_error "Error denying impression:" error ;;;
       _ <- slack (chat_postEphemeral (SLACK_BOT_TOKEN env)
                     (Some (body_channel_id body)) (body_user_id body)
                     ("Error denying impression: " ++ error)) ;;
       ret tt).

(** The identities [delete_me] obeys. *)
Definition admins : list string :=
  [ "UJYDFQ2QL"; "UHFEGV147"; "U01D6FYHLUW"; "UM4BAKT6U"; "U0128N09Q8Y" ].

(** [app.shortcut("delete_me", ...)]. *)
Definition delete_me (body : Body) : M unit :=
  ack ;;;
  env <- ask ;;
  if includes admins (body_user_id body)
  then
    _ <- slack (chat_delete (SLACK_BOT_TOKEN env)
                  (body_message_ts body) (body_channel_id body)) ;;
    _ <- slack (chat_postEphemeral (SLACK_BOT_TOKEN env)
                  (Some (body_channel_id body)) (body_user_id body) "doned") ;;
    ret tt
  else
    _ <- slack (chat_postEphemeral (SLACK_BOT_TOKEN env)
                  (Some (body_channel_id body)) (body_user_id body)
                  "grrr stop bullying") ;;
    ret tt.

(** The channels impressions may be replied from, and the identity that
    may reply from anywhere. *)
Definition permitted_channels : list string :=
  [ "C02A6BRM2JD"; "G01PPVD14Q0"; "C08TS367V2T" ].

Definition override_users : list string := [ "UJYDFQ2QL" ].

(** [process.env.HONEST_IMPRESSIONS_CHANNEL_ID === body.channel.id]. *)
Definition is_honest_env_channel (env : Env) (c : string) : bool :=
  match HONEST_IMPRESSIONS_CHANNEL_ID env with
  | Some s => String.eqb s c
  | None => false
  end.

Definition impression_modal (body : Body) : modal :=
  mkModal "impression_id" "Honest Impressions" "input_c" "Honestly I think...."
          "dreamy_input" true "Submit (Anonymous)"
          (body_message_ts_top body ++ "|" ++ body_channel_id body).

(** [app.shortcut("reply_impression", ...)]. *)
Definition reply_impression (body : Body) : M unit :=
  ack ;;;
  env <- ask ;;
  if includes (banList env) (body_user_id body)
  then
    _ <- slack (chat_postEphemeral (SLACK_BOT_TOKEN env)
                  (Some (body_channel_id body)) (body_user_id body)
                  "You are not allowed to submit honest impressions.") ;;
    ret tt
  else if negb (includes permitted_channels (body_channel_id body))
          && negb (is_honest_env_channel env (body_channel_id body))
          && negb (includes override_users (body_user_id body))
  then
    _ <- slack (chat_postEphemeral (SLACK_BOT_TOKEN env)
                  (Some (body_channel_id body)) (body_user_id body)
                  "Post the honest impression in <#C029QJD8M0D>") ;;
    ret tt
  else
    _ <- slack (views_open (body_trigger_id body) (impression_modal body)) ;;
    ret tt.

(** [app.view("impression_id", ...)]. *)
Definition impression_id (body : Body) (view : View) : M unit :=
  ack ;;;
  env <- ask ;;
  let userHash := Md5.md5_hex (body_user_id body) in
  let msg := view_dreamy_input_value view in
  let parts := split "|"%char (view_private_metadata view) in
  let threadTs := hd EmptyString parts in
  let channelId := nth_error parts 1 in
  try_catch
    (messageId <- insert_message userHash msg "pending" threadTs channelId ;;
     _ <- sendToReviewChannel msg userHash messageId ;;
     _ <- slack (chat_postEphemeral (SLACK_BOT_TOKEN env) channelId (body_user_id body)
                   "✅ Your anonymous impression has been submitted for review, and will appear in the thread once accepted.") ;;
     ret tt)
    (fun error =>
       console_error "Error submitting impression:" error ;;;
       try_catch
         (_ <- slack (chat_postEphemeral (SLACK_BOT_TOKEN env) channelId (body_user_id body)
                        "Failed to submit impression. Please try again.") ;;
          ret tt)
         (fun _ => ret tt)).

(** ** Events and runs *)

Inductive event :=
| on_accept_impression (body : Body)
| on_deny_impression (body : Body)
| on_delete_me (body : Body)
| on_reply_impression (body : Body)
| on_impression_id (body : Body) (view : View).

Definition handle (e : event) : M unit :=
  match e with
  | on_accept_impression b => accept_impression b
  | on_deny_impression b => deny_impression b
  | on_delete_me b => delete_me b
  | on_reply_impression b => reply_impression b
  | on_impression_id b v => impression_id b v
  end.

(** The world a handler leaves; an error it lets escape is reported by the
    framework and the process goes on. *)
Definition exec (env : Env) (e : event) (w : World) : World :=
  snd (handle e env w).

Definition run (env : Env) (es : list event) (w : World) : World :=
  fold_left (fun w e => exec env e w) es w.

(** The platform's side of a submission: the shortcut runs; when the call
    it ends with is a [views.open] that succeeded, the user fills the modal
    with [text] and submits it, and the view handler runs on the modal's
    metadata.  Otherwise there is no form to submit. *)
Definition submission_flow (body : Body) (text : string) : M unit :=
  fun env w =>
    let '(o, w1) := reply_impression body env w in
    match last (effects w1) Ack with
    | Slack (views_open _ v) (ok _) =>
        impression_id body (mkView text (private_metadata v)) env w1
    | _ => (o, w1)
    end.

(** ** Vocabulary of the properties *)

(** A reviewer's decision, the event it arrives as, the status it writes
    and the verb of its error notice. *)
Inductive decision := Accept | Deny.

Definition decision_event (d : decision) (body : Body) : event :=
  match d with
  | Accept => on_accept_impression body
  | Deny => on_deny_impression body
  end.

Definition decision_status (d : decision) : string :=
  match d with
  | Accept => "accepted"
  | Deny => "denied"
  end.

Definition decision_verb (d : decision) : string :=
  match d with
  | Accept => "accepting"
  | Deny => "denying"
  end.

(** The terminal states of the lifecycle. *)
Definition terminal (st : string) : Prop := st = "accepted" \/ st = "denied".

(** [reviewed_at] is set exactly on the rows whose status is terminal. *)
Definition reviewed_iff_terminal (r : Row) : Prop :=
  reviewed_at r <> None <-> terminal (status r).

(** The submission a decision on [z] loads: [result.rows[0]]. *)
Definition find_row (z : Z) (t : list Row) : option Row :=
  find (fun r => id r =? z) t.

(** The columns a decision never writes. *)
Definition same_submission (r r' : Row) : Prop :=
  id r' = id r /\ user_hash r' = user_hash r /\ message r' = message r /\
  created_at r' = created_at r /\ thread_ts r' = thread_ts r /\
  channel_id r' = channel_id r.

(** [r] is a row of [t'] at a position [t] does not have. *)
Definition new_row (t t' : list Row) (r : Row) : Prop :=
  exists k, (List.length t <= k)%nat /\ nth_error t' k = Some r.

(** The message an accepted submission is relayed as. *)
Definition relay (env : Env) (X : Row) : slack_call :=
  chat_postMessage (SLACK_BOT_TOKEN env) (honest_channel env)
                   (thread_ts X) (message X) [].

Definition is_postMessage (e : effect) : bool :=
  match e with
  | Slack (chat_postMessage _ _ _ _ _) _ => true
  | _ => false
  end.

Definition is_delete (e : effect) : bool :=
  match e with
  | Slack (chat_delete _ _ _) _ => true
  | _ => false
  end.

(** The review card after a decision. *)
Definition accepted_card (env : Env) (body : Body) (X : Row) : slack_call :=
  chat_update (SLACK_BOT_TOKEN env) (body_channel_id body) (body_message_ts body)
    ("✅ Accepted by <@" ++ body_user_id body ++ ">")
    [ section_mrkdwn (message X ++ nl ++ nl
                      ++ "✅ *Accepted* by <@" ++ body_user_id body ++ ">") ].

Definition denied_card (env : Env) (body : Body) (X : Row) : slack_call :=
  chat_update (SLACK_BOT_TOKEN env) (body_channel_id body) (body_message_ts body)
    ("❌ Denied by <@" ++ body_user_id body ++ ">")
    [ section_mrkdwn ("~" ++ message X ++ "~" ++ nl ++ nl
                      ++ "❌ *Denied* by <@" ++ body_user_id body ++ ">") ].

Definition decision_card (d : decision) : Env -> Body -> Row -> slack_call :=
  match d with
  | Accept => accepted_card
  | Deny => denied_card
  end.

(** A private notice to the user who triggered the event, in the channel
    the event came from. *)
Definition private_notice (env : Env) (body : Body) (text : string) : slack_call :=
  chat_postEphemeral (SLACK_BOT_TOKEN env) (Some (body_channel_id body))
                     (body_user_id body) text.

(** What the [catch] of a decision handler does with an error [msg]. *)
Definition error_report (env : Env) (d : decision) (body : Body) (msg : string)
                        (r : reply) : list effect :=
  [ ConsoleError ("Error " ++ decision_verb d ++ " impression:") msg;
    Slack (private_notice env body ("Error " ++ decision_verb d ++ " impression: " ++ msg)) r ].

(** The log of the side-effect phase of a decision on [X], given what the
    platform answers to the relay ([r1]), to the edit of the card ([r2]) and
    to the error notice ([r3]). *)
Definition card_trace (env : Env) (d : decision) (body : Body) (X : Row)
                      (r2 r3 : reply) : list effect :=
  Slack (decision_card d env body X) r2 ::
  match r2 with
  | ok _ => []
  | failed msg => error_report env d body msg r3
  end.

Definition decision_trace (env : Env) (d : decision) (body : Body) (X : Row)
                          (r1 r2 r3 : reply) : list effect :=
  match d with
  | Accept =>
      Slack (relay env X) r1 ::
      match r1 with
      | ok _ => card_trace env d body X r2 r3
      | failed msg => error_report env d body msg r3
      end
  | Deny => card_trace env d body X r2 r3
  end.

(** A call of the side-effect phase of a decision: the relay or the edit of
    the review card. *)
Definition is_side_effect (c : slack_call) : bool :=
  match c with
  | chat_postMessage _ _ _ _ _ => true
  | chat_update _ _ _ _ _ => true
  | _ => false
  end.

Definition is_side_effect_call (e : effect) : bool :=
  match e with
  | Slack c _ => is_side_effect c
  | _ => false
  end.

(** A string without UTF-8 continuation bytes: one character per byte. *)
Fixpoint one_byte_chars (s : string) : bool :=
  match s with
  | EmptyString => true
  | String c s' => negb (is_continuation c) && one_byte_chars s'
  end.

(** ** Concrete scenarios *)

(** [parseInt] on a plain decimal numeral, which is what the value of a
    review button is. *)
Definition parseInt_decimal (s : string) : jsnum :=
  match NilZero.int_of_string s with
  | Some i => Num (Z.of_int i)
  | None => NaN
  end.

(** A platform that answers every call. *)
Definition slack_up : nat -> slack_call -> reply :=
  fun _ _ => ok "1700000001.000200".

(** A platform that refuses to edit messages. *)
Definition slack_no_update : nat -> slack_call -> reply :=
  fun _ c =>
    match c with
    | chat_update _ _ _ _ _ => failed "message_not_found"
    | _ => ok "1700000001.000200"
    end.

(** A platform that refuses to post into threads. *)
Definition slack_no_thread : nat -> slack_call -> reply :=
  fun _ c =>
    match c with
    | chat_postMessage _ _ (Some _) _ _ => failed "thread_not_found"
    | _ => ok "1700000001.000200"
    end.

Definition scenario_env (honest : option string) (bans : list string)
                        (api : nat -> slack_call -> reply) : Env :=
  mkEnv "xoxb-token" "C0REVIEW" honest bans parseInt_decimal api
        (fun _ => None)
        (fun _ => "invalid input syntax for type integer")
        (fun _ => "value too long for type character varying")
        (fun n => 1000 + Z.of_nat n).

(** U1 replies from a permitted channel; R1 clicks a button of the card of
    submission 1; R2 clicks a button of a card whose submission is gone. *)
Definition U1 : Body :=
  mkBody "U1" "C02A6BRM2JD" "1700000000.000100" "1700000000.000100" "trigger-1" "".

Definition U1_elsewhere : Body :=
  mkBody "U1" "C0RANDOM" "1700000000.000300" "1700000000.000300" "trigger-2" "".

Definition R1 : Body :=
  mkBody "R1" "C0REVIEW" "1700000001.000200" "1700000001.000200" "" "1".

Definition R2 : Body :=
  mkBody "R2" "C0REVIEW" "1700000001.000900" "1700000001.000900" "" "9999".

Definition nice_job : View := mkView "nice job" "1700000000.000100|C02A6BRM2JD".

(** The world after U1 submitted "nice job". *)
Definition submitted (env : Env) : World :=
  run env [on_reply_impression U1; on_impression_id U1 nice_job] init_world.

(** ** Start-up: the environment check and the application's configuration *)

(** [process.env]: a variable is unset or holds a string. *)
Definition process_env : Type := string -> option string.

(** JavaScript truthiness of [process.env.X]: set and not empty. *)
Definition truthy (v : option string) : bool :=
  match v with
  | Some s => negb (String.eqb s "")
  | None => false
  end.

(** [process.env.X === s]. *)
Definition strict_eq (v : option string) (s : string) : bool :=
  match v with
  | Some x => String.eqb x s
  | None => false
  end.

Definition useSocketMode (penv : process_env) : bool :=
  strict_eq (penv "SOCKET_MODE") "true"
  || (negb (truthy (penv "SOCKET_MODE")) && truthy (penv "SLACK_APP_TOKEN")).

Definition requiredEnvVars (penv : process_env) : list string :=
  ([ "SLACK_SIGNING_SECRET"; "SLACK_BOT_TOKEN"; "POSTGRES_URL"; "REVIEW_CHANNEL_ID" ]
   ++ (if useSocketMode penv then [ "SLACK_APP_TOKEN" ] else []))%list.

(** The names the [forEach] pushes. *)
Definition missingVars (penv : process_env) : list string :=
  filter (fun varName => negb (truthy (penv varName))) (requiredEnvVars penv).

(** [Array.prototype.join]. *)
Fixpoint join (sep : string) (l : list string) : string :=
  match l with
  | [] => EmptyString
  | x :: l' =>
      match l' with
      | [] => x
      | _ :: _ => x ++ sep ++ join sep l'
      end
  end.

(** How a start-up step ends: the process goes on, or exits with a code. *)
Inductive boot_result := Continue | ProcessExit (code : Z).

(** The environment validation: its result and what it prints. *)
Definition check_env (penv : process_env) : boot_result * list string :=
  match missingVars penv with
  | [] => (Continue, [])
  | _ :: _ =>
      (ProcessExit 1,
       [ "⤫ Missing required environment variables: " ++ join ", " (missingVars penv) ])
  end.

(** [appConfig]: [socketMode] and [appToken] are only set in socket mode. *)
Record AppConfig := mkAppConfig {
  cfg_token : option string;
  cfg_signingSecret : option string;
  cfg_socketMode : bool;
  cfg_appToken : option string
}.

Definition appConfig (penv : process_env) : AppConfig :=
  if useSocketMode penv
  then mkAppConfig (penv "SLACK_BOT_TOKEN") (penv "SLACK_SIGNING_SECRET")
                   true (penv "SLACK_APP_TOKEN")
  else mkAppConfig (penv "SLACK_BOT_TOKEN") (penv "SLACK_SIGNING_SECRET")
                   false None.

(** ** Start-up: [initDatabase] *)

(** What [initDatabase] sees of the database: the table [messages], when it
    exists, with its rows and the next value of its sequence, and the names
    of the indexes. *)
Record Catalog := mkCatalog {
  messages_table : option (list Row * Z);
  index_names : list string
}.

Inductive console_line :=
| ConsoleLog (text : string)
| ConsoleErr (label : string) (msg : string).

(** The state of the start-up: the catalog, the number of queries sent, and
    the console. *)
Record Boot := mkBoot {
  catalog : Catalog;
  queries : nat;
  console : list console_line
}.

(** One query of [initDatabase]: counted, failing when [fault] says so or
    when the statement itself is refused. *)
Definition boot_query {A} (fault : nat -> option string)
                      (stmt : Catalog -> outcome A * Catalog)
                      (b : Boot) : outcome A * Boot :=
  match fault (queries b) with
  | Some msg => (Throw msg, mkBoot (catalog b) (S (queries b)) (console b))
  | None =>
      let '(o, c) := stmt (catalog b) in
      (o, mkBoot c (S (queries b)) (console b))
  end.

(** [SELECT to_regclass('public.messages') AS table_exists]: truthy when
    the table exists. *)
Definition to_regclass (c : Catalog) : outcome bool * Catalog :=
  (Return (match messages_table c with Some _ => true | None => false end), c).

(** [CREATE TABLE IF NOT EXISTS messages (...)]: a new table is empty and
    its sequence starts at 1. *)
Definition create_table (c : Catalog) : outcome unit * Catalog :=
  match messages_table c with
  | Some _ => (Return tt, c)
  | None => (Return tt, mkCatalog (Some ([], 1)) (index_names c))
  end.

(** An index is added to the catalog unless it is there already. *)
Definition add_index (name : string) (names : list string) : list string :=
  if includes names name then names else (names ++ [name])%list.

(** [CREATE INDEX IF NOT EXISTS name ON messages(...)]. *)
Definition create_index (name : string) (c : Catalog) : outcome unit * Catalog :=
  match messages_table c with
  | None => (Throw "relation messages does not exist", c)
  | Some _ => (Return tt, mkCatalog (messages_table c) (add_index name (index_names c)))
  end.

(** The nested [createIndexes]. *)
Definition createIndexes (fault : nat -> option string) (b : Boot) : outcome unit * Boot :=
  match boot_query fault (create_index "idx_user_hash") b with
  | (Return _, b1) => boot_query fault (create_index "idx_status") b1
  | (Throw e, b1) => (Throw e, b1)
  end.

(** The body of the [try] of [initDatabase]. *)
Definition initDatabase_try (fault : nat -> option string) (b : Boot) : outcome unit * Boot :=
  match boot_query fault to_regclass b with
  | (Throw e, b1) => (Throw e, b1)
  | (Return true, b1) => createIndexes fault b1
  | (Return false, b1) =>
      match boot_query fault create_table b1 with
      | (Throw e, b2) => (Throw e, b2)
      | (Return _, b2) =>
          match createIndexes fault b2 with
          | (Throw e, b3) => (Throw e, b3)
          | (Return _, b3) =>
              (Return tt,
               mkBoot (catalog b3) (queries b3)
                      (console b3 ++
                       [ConsoleLog "✓ Initial PSQL Database initialized successfully"])%list)
          end
      end
  end.

(** [initDatabase()]: an error of any query is printed and the process
    exits with code 1. *)
Definition initDatabase (fault : nat -> option string) (b : Boot) : boot_result * Boot :=
  match initDatabase_try fault b with
  | (Return _, b') => (Continue, b')
  | (Throw e, b') =>
      (ProcessExit 1,
       mkBoot (catalog b') (queries b')
              (console b' ++
               [ConsoleErr "⤫ Initial PSQL Database initialization error:" e])%list)
  end.

(** The number of queries [initDatabase] sends when none fails. *)
Definition init_queries (c : Catalog) : nat :=
  match messages_table c with
  | Some _ => 3
  | None => 4
  end.

(** The world the handlers start in, when the table exists. *)
Definition world_of (c : Catalog) : option World :=
  match messages_table c with
  | Some (rows, seq) => Some (mkWorld rows seq 0 [])
  | None => None
  end.

(** ** More vocabulary *)

(** The ids of the table are distinct and below the sequence. *)
Definition fresh_ids (w : World) : Prop :=
  (forall r, In r (tbl w) -> id r < messages_id_seq w) /\
  NoDup (map id (tbl w)).

Definition is_ack (e : effect) : bool :=
  match e with
  | Ack => true
  | _ => false
  end.

Definition is_views_open_call (e : effect) : bool :=
  match e with
  | Slack (views_open _ _) _ => true
  | _ => false
  end.

Definition is_card_edit (e : effect) : bool :=
  match e with
  | Slack (chat_update _ _ _ _ _) _ => true
  | _ => false
  end.

(** The review card [sendToReviewChannel] posts. *)
Definition review_card (env : Env) (msg prefix : string) (messageId : Z) : slack_call :=
  chat_postMessage (SLACK_BOT_TOKEN env) (REVIEW_CHANNEL_ID env) None
    ("Pending impression from (" ++ prefix ++ "):" ++ nl ++ ">" ++ msg)
    [ section_mrkdwn ("*Pending Impression*" ++ nl ++ "From: `"
                      ++ prefix ++ "...`" ++ nl ++ nl ++ ">" ++ msg);
      actions [ mkButton "✅ Accept" "primary" "accept_impression" (toString messageId);
                mkButton "❌ Deny" "danger" "deny_impression" (toString messageId) ] ].

(** The values of the buttons of a call's blocks. *)
Definition button_values (c : slack_call) : list string :=
  match c with
  | chat_postMessage _ _ _ _ blocks =>
      flat_map (fun b => match b with
                         | actions elements => map btn_value elements
                         | section_mrkdwn _ => []
                         end) blocks
  | _ => []
  end.

(** What the accept handler reads of a row. *)
Definition relayed_part (r : Row) : Z * option string * string :=
  (id r, thread_ts r, message r).

(** Does [s] contain the character [c]? *)
Fixpoint contains (c : ascii) (s : string) : bool :=
  match s with
  | EmptyString => false
  | String a s' => Ascii.eqb a c || contains c s'
  end.

(** The two notices a submitter can get from the submission handler. *)
Definition confirmation : string :=
  "✅ Your anonymous impression has been submitted for review, and will appear in the thread once accepted.".

Definition failure_notice : string :=
  "Failed to submit impression. Please try again.".

(** The row a submission by [body] with form [view] inserts in [w], with
    thread [th], channel [ch] and review-card reference [card]. *)
Definition submitted_row (env : Env) (body : Body) (view : View) (w : World)
                         (th : string) (ch card : option string) : Row :=
  mkRow (messages_id_seq w) (Md5.md5_hex (body_user_id body))
        (view_dreamy_input_value view) "pending" (NOW env (stmts w))
        None card (Some th) ch.

(** The review card of that submission. *)
Definition submission_card (env : Env) (body : Body) (view : View) (w : World) : slack_call :=
  review_card env (view_dreamy_input_value view)
              (substring 0 8 (Md5.md5_hex (body_user_id body))) (messages_id_seq w).

(** The thread and the channel a submitted form names. *)
Definition form_thread (view : View) : string :=
  hd EmptyString (split "|"%char (view_private_metadata view)).

Definition form_channel (view : View) : option string :=
  nth_error (split "|"%char (view_private_metadata view)) 1.

(** ** More scenarios *)

(** [process.env] as the lines of a [.env] file give it. *)
Fixpoint penv_of (l : list (string * string)) : process_env :=
  fun name =>
    match l with
    | [] => None
    | (k, v) :: l' => if String.eqb k name then Some v else penv_of l' name
    end.

(** A deployment in socket mode, chosen by the presence of the app token. *)
Definition socket_penv : process_env :=
  penv_of [ ("SLACK_SIGNING_SECRET", "0123abcd"); ("SLACK_BOT_TOKEN", "xoxb-token");
            ("POSTGRES_URL", "postgres://localhost/impressions");
            ("REVIEW_CHANNEL_ID", "C0REVIEW"); ("SLACK_APP_TOKEN", "xapp-token") ].

(** A database server that serves every query, and a database in which
    nothing was created yet. *)
Definition no_fault : nat -> option string := fun _ => None.

Definition empty_boot : Boot := mkBoot (mkCatalog None []) 0 [].

(** A platform that refuses every call. *)
Definition slack_down : nat -> slack_call -> reply :=
  fun _ _ => failed "not_authed".

(** A platform that refuses to post without a thread, as the review card
    is posted. *)
Definition slack_no_card : nat -> slack_call -> reply :=
  fun _ c =>
    match c with
    | chat_postMessage _ _ None _ _ => failed "channel_not_found"
    | _ => ok "1700000001.000200"
    end.

(** U1 replies from the channel accepted impressions are posted to, and
    U2 is not an admin. *)
Definition U1_relay : Body :=
  mkBody "U1" "C029QJD8M0D" "1700000000.000100" "1700000000.000100" "trigger-1" "".

Definition U2 : Body :=
  mkBody "U2" "C02A6BRM2JD" "1700000000.000500" "1700000000.000500" "trigger-3" "".

(** The same table with every column a decision does not read replaced. *)
Definition scrubbed (w : World) : World :=
  mkWorld (map (fun r => mkRow (id r) "00000000000000000000000000000000" (message r)
                               "denied" 0 (Some 0) None (thread_ts r) None)
               (tbl w))
          (messages_id_seq w) (stmts w) (effects w).

(** A form whose metadata names a thread reference of 53 characters. *)
Definition long_thread : View :=
  mkView "nice job" "1700000000.000100-1700000000.000100-1700000000.000100|C02A6BRM2JD".

(** * Properties *)

(** ** The model on known values *)

Example md5_hex_empty : Md5.md5_hex "" = "d41d8cd98f00b204e9800998ecf8427e".
Proof. vm_compute. reflexivity. Qed.

Example md5_hex_abc : Md5.md5_hex "abc" = "900150983cd24fb0d6963f7d28e17f72".
Proof. vm_compute. reflexivity. Qed.

Example md5_hex_admin : Md5.md5_hex "UJYDFQ2QL" = "459ac4648f885fdc68130dc3a53e1a4d".
Proof. vm_compute. reflexivity. Qed.

Example md5_hex_two_blocks :
  Md5.md5_hex "aaaaaaaaaaaaaaaaaaaaaaaaaaaaaaaaaaaaaaaaaaaaaaaaaaaaaaaa"
  = "3b0c8ac703f828b04c6c197006d17218".
Proof. vm_compute. reflexivity. Qed.

Example split_metadata :
  split "|"%char "1700000000.000100|C02A6BRM2JD" = ["1700000000.000100"; "C02A6BRM2JD"]
  /\ split "|"%char "" = [""] /\ split "|"%char "a|b|c" = ["a"; "b"; "c"].
Proof. repeat split. Qed.

Example varchar_cases :
  varchar 3 "abc" = Some "abc" /\ varchar 3 "abcd" = None /\
  varchar 3 "abc  " = Some "abc" /\ varchar 1 "é" = Some "é".
Proof. repeat split. Qed.

(** The first scenario of the specification: U1 submits "nice job" from a
    permitted channel and R1 accepts it. *)
Example scenario_accept :
  let env := scenario_env None [] slack_up in
  let w := submitted env in
  let w' := exec env (on_accept_impression R1) w in
  tbl w = [ mkRow 1 "f89412c11bdc0ab44f99f92d5e9a3c5e" "nice job" "pending" 1000 None
                  (Some "1700000001.000200") (Some "1700000000.000100")
                  (Some "C02A6BRM2JD") ] /\
  tbl w' = [ mkRow 1 "f89412c11bdc0ab44f99f92d5e9a3c5e" "nice job" "accepted" 1000
                   (Some 1003) (Some "1700000001.000200") (Some "1700000000.000100")
                   (Some "C02A6BRM2JD") ] /\
  skipn (List.length (effects w)) (effects w')
  = [ Ack;
      Slack (chat_postMessage "xoxb-token" "C029QJD8M0D" (Some "1700000000.000100")
               "nice job" []) (ok "1700000001.000200");
      Slack (chat_update "xoxb-token" "C0REVIEW" "1700000001.000200"
               "✅ Accepted by <@R1>"
               [ section_mrkdwn ("nice job" ++ nl ++ nl ++ "✅ *Accepted* by <@R1>") ])
            (ok "1700000001.000200") ].
Proof. vm_compute. repeat split. Qed.

(** The second scenario: R1 denies instead; nothing is posted into the
    thread. *)
Example scenario_deny :
  let env := scenario_env None [] slack_up in
  let w := submitted env in
  let w' := exec env (on_deny_impression R1) w in
  map (fun r => (id r, status r, reviewed_at r)) (tbl w') = [(1, "denied", Some 1003)] /\
  skipn (List.length (effects w)) (effects w')
  = [ Ack;
      Slack (chat_update "xoxb-token" "C0REVIEW" "1700000001.000200"
               "❌ Denied by <@R1>"
               [ section_mrkdwn ("~nice job~" ++ nl ++ nl ++ "❌ *Denied* by <@R1>") ])
            (ok "1700000001.000200") ].
Proof. vm_compute. repeat split. Qed.

(** The third scenario: a deny-listed user gets the rejection notice and
    nothing else happens. *)
Example scenario_deny_listed :
  exec (scenario_env None ["U1"] slack_up) (on_reply_impression U1) init_world
  = mkWorld [] 1 0
      [ Ack;
        Slack (chat_postEphemeral "xoxb-token" (Some "C02A6BRM2JD") "U1"
                 "You are not allowed to submit honest impressions.")
              (ok "1700000001.000200") ].
Proof. vm_compute. reflexivity. Qed.

(** The fourth scenario: a decision on submission 9999, which does not
    exist. *)
Example scenario_not_found :
  let env := scenario_env None [] slack_up in
  let w := submitted env in
  let w' := exec env (on_accept_impression R2) w in
  tbl w' = tbl w /\
  skipn (List.length (effects w)) (effects w')
  = [ Ack;
      ConsoleError "Error accepting impression:" "Message not found";
      Slack (chat_postEphemeral "xoxb-token" (Some "C0REVIEW") "R2"
               "Error accepting impression: Message not found")
            (ok "1700000001.000200") ].
Proof. vm_compute. repeat split. Qed.

(** ** Facts about the digest *)

Lemma le_bytes_length n x : List.length (Md5.le_bytes n x) = n.
Proof.
  revert x; induction n as [|n IH]; intros x; simpl; [reflexivity|].
  now rewrite IH.
Qed.

Lemma le_bytes_range n x : Forall (fun b => 0 <= b < 256) (Md5.le_bytes n x).
Proof.
  revert x; induction n as [|n IH]; intros x; simpl; constructor.
  - apply Z.mod_pos_bound. lia.
  - apply IH.
Qed.

Lemma hex_of_bytes_length bs :
  String.length (Md5.hex_of_bytes bs) = (2 * List.length bs)%nat.
Proof. induction bs as [|b bs IH]; simpl; [reflexivity|]. rewrite IH. lia. Qed.

Lemma md5_hex_length s : String.length (Md5.md5_hex s) = 32%nat.
Proof.
  unfold Md5.md5_hex, Md5.digest_bytes.
  rewrite hex_of_bytes_length, !length_app, !le_bytes_length.
  reflexivity.
Qed.

Lemma hex_digit_one_byte x : 0 <= x < 16 -> is_continuation (Md5.hex_digit x) = false.
Proof.
  intros H.
  assert (E : x = 0 \/ x = 1 \/ x = 2 \/ x = 3 \/ x = 4 \/ x = 5 \/ x = 6 \/ x = 7 \/
              x = 8 \/ x = 9 \/ x = 10 \/ x = 11 \/ x = 12 \/ x = 13 \/ x = 14 \/ x = 15)
    by lia.
  repeat (destruct E as [-> | E]; [reflexivity|]). subst x. reflexivity.
Qed.

Lemma hex_of_bytes_one_byte bs :
  Forall (fun b => 0 <= b < 256) bs -> one_byte_chars (Md5.hex_of_bytes bs) = true.
Proof.
  induction 1 as [|b bs Hb _ IH]; simpl; [reflexivity|].
  rewrite !hex_digit_one_byte, IH; [reflexivity | |].
  - apply Z.mod_pos_bound. lia.
  - split; [apply Z.div_pos; lia | apply Z.div_lt_upper_bound; lia].
Qed.

Lemma take_cont_one_byte s : one_byte_chars s = true -> take_cont s = (EmptyString, s).
Proof.
  destruct s as [|c s]; simpl; [reflexivity|].
  destruct (is_continuation c); [discriminate | reflexivity].
Qed.

Lemma take_chars_one_byte n s :
  one_byte_chars s = true -> (String.length s <= n)%nat ->
  take_chars n s = (s, EmptyString).
Proof.
  revert s; induction n as [|n IH]; intros [|c s] Hs Hl; simpl in *;
    try reflexivity; try lia.
  apply andb_prop in Hs. destruct Hs as [_ Hs].
  rewrite (take_cont_one_byte s Hs), IH by (auto; lia). reflexivity.
Qed.

(** The digest always fits the [VARCHAR(32)] column, unchanged. *)
Lemma varchar_md5_hex s : varchar 32 (Md5.md5_hex s) = Some (Md5.md5_hex s).
Proof.
  unfold varchar. rewrite take_chars_one_byte.
  - reflexivity.
  - unfold Md5.md5_hex, Md5.digest_bytes. apply hex_of_bytes_one_byte.
    repeat (apply Forall_app; split); apply le_bytes_range.
  - rewrite md5_hex_length. lia.
Qed.

(** ** Lookups and parameters *)

Lemma filter_find_none z t :
  find_row z t = None -> filter (fun r => id r =? z) t = [].
Proof.
  unfold find_row. induction t as [|r t IH]; simpl; [reflexivity|].
  destruct (id r =? z); [discriminate | exact IH].
Qed.

Lemma filter_find_some z t X :
  find_row z t = Some X -> exists rest, filter (fun r => id r =? z) t = X :: rest.
Proof.
  unfold find_row. induction t as [|r t IH]; simpl; [discriminate|].
  destruct (id r =? z).
  - intros [= ->]. eauto.
  - exact IH.
Qed.

Lemma find_row_In t r : In r t -> exists X, find_row (id r) t = Some X.
Proof.
  unfold find_row. induction t as [|a t IH]; simpl; [intros []|].
  intros [-> | H].
  - rewrite Z.eqb_refl. eauto.
  - destruct (id a =? id r); eauto.
Qed.

Lemma no_match_filter z t :
  (forall r, In r t -> id r <> z) -> filter (fun r => id r =? z) t = [].
Proof.
  intros H. induction t as [|r t IH]; simpl; [reflexivity|].
  destruct (Z.eqb_spec (id r) z) as [E|E].
  - exfalso. apply (H r); [now left | exact E].
  - apply IH. intros r' Hr'. apply H. now right.
Qed.

Lemma pg_int4_Num x z : pg_int4 (Num x) = Some z -> z = x.
Proof. simpl. destruct (_ && _); congruence. Qed.

Lemma pg_int4_Some x z : pg_int4 x = Some z -> x = Num z.
Proof.
  destruct x as [|y]; [discriminate|]. intros H. now rewrite (pg_int4_Num _ _ H).
Qed.

Lemma includes_In l x : includes l x = true <-> In x l.
Proof.
  unfold includes. rewrite existsb_exists. split.
  - intros [y [Hy He]]. apply String.eqb_eq in He. now subst.
  - intros H. exists x. split; [exact H | apply String.eqb_refl].
Qed.

Lemma includes_not_In l x : includes l x = false <-> ~ In x l.
Proof.
  rewrite <- includes_In. destruct (includes l x); split; congruence.
Qed.

Lemma varchar_accepted : varchar 20 "accepted" = Some "accepted".
Proof. reflexivity. Qed.

Lemma varchar_denied : varchar 20 "denied" = Some "denied".
Proof. reflexivity. Qed.

Lemma varchar_pending : varchar 20 "pending" = Some "pending".
Proof. reflexivity. Qed.

(** ** Running a handler symbolically *)

(** Unfold the handler and the monad, keeping the store's and the
    platform's answers as the only things left to case on. *)
Ltac run_handler :=
  cbv beta iota zeta delta
    [exec handle decision_event accept_impression deny_impression delete_me
     reply_impression impression_id sendToReviewChannel
     bind try_catch ack console_error log ask throw ret
     select_by_id update_status update_review_message_ts insert_message
     nextval pg_statement get_tbl put_tbl slack add_effect];
  rewrite ?varchar_accepted, ?varchar_denied, ?varchar_pending;
  cbn [tbl effects stmts messages_id_seq fst snd await].

Ltac case_env :=
  match goal with
  | |- context [await ?r] => destruct r eqn:?
  | |- context [match pg_fault ?e ?n with _ => _ end] => destruct (pg_fault e n) eqn:?
  | |- context [match pg_int4 ?x with _ => _ end] => destruct (pg_int4 x) eqn:?
  | |- context [match filter ?f ?t with _ => _ end] => destruct (filter f t) eqn:?
  | |- context [match varchar ?n ?s with _ => _ end] => destruct (varchar n s) eqn:?
  | |- context [match varchar_opt ?n ?s with _ => _ end] =>
      destruct (varchar_opt n s) eqn:?
  | |- context [if ?b then _ else _] => destruct b eqn:?
  end;
  cbn [tbl effects stmts messages_id_seq fst snd await].

(** The same for one statement of the store. *)
Ltac run_statement :=
  cbv beta iota zeta delta
    [bind ask throw ret update_status update_review_message_ts insert_message
     nextval pg_statement get_tbl put_tbl decision_status];
  cbn [tbl effects stmts messages_id_seq fst snd].

(** The log is a left-nested append of what was emitted. *)
Ltac log_eq := rewrite <- ?app_assoc; cbn [app]; reflexivity.

Ltac pick_reply_post :=
  match goal with
  | H : slack_api _ _ (chat_postMessage _ _ _ _ _) = ?r |- _ => exists r
  | _ => exists (ok "")
  end.

Ltac pick_reply_update :=
  match goal with
  | H : slack_api _ _ (chat_update _ _ _ _ _) = ?r |- _ => exists r
  | _ => exists (ok "")
  end.

Ltac pick_reply_notice :=
  match goal with
  | H : slack_api _ _ (chat_postEphemeral _ _ _ _) = ?r |- _ => exists r
  | _ => exists (ok "")
  end.

(** A decision that fails before its [UPDATE] took effect. *)
Ltac before_commit :=
  repeat case_env; (split; [reflexivity|]); left; do 2 eexists;
  (split; [reflexivity|]);
  (split; [unfold error_report, private_notice, decision_verb; log_eq|]);
  first [ left; congruence
        | right; left; congruence
        | right; right; left; congruence
        | right; right; right; eexists;
          split; [apply pg_int4_Some; eassumption | eassumption] ].

(** ** What each handler leaves in the store *)

Lemma delete_me_tbl env b w : tbl (exec env (on_delete_me b) w) = tbl w.
Proof. run_handler. repeat case_env; reflexivity. Qed.

Lemma reply_impression_tbl env b w :
  tbl (exec env (on_reply_impression b) w) = tbl w.
Proof. run_handler. repeat case_env; reflexivity. Qed.

(** A submission leaves the table alone, or appends one pending row, whose
    [review_message_ts] it may then fill in. *)
Lemma impression_id_rows env b v w :
  let w' := exec env (on_impression_id b v) w in
  tbl w' = tbl w \/
  exists newid th ch,
    let row := mkRow newid (Md5.md5_hex (body_user_id b)) (view_dreamy_input_value v)
                     "pending" (NOW env (stmts w)) None None (Some th) ch in
    tbl w' = (tbl w ++ [row])%list \/
    exists ts, tbl w' = update_where newid (set_review_message_ts ts) (tbl w ++ [row])%list.
Proof.
  run_handler. rewrite varchar_md5_hex. repeat case_env; eauto 10.
  all: match goal with H : pg_int4 (Num _) = Some _ |- _ => apply pg_int4_Num in H end;
       subst; eauto 10.
Qed.

(** Every run of a decision: either it fails before the [UPDATE] took
    effect, the table is as before and the error is reported; or the
    submission was found, the [UPDATE] is in the table, and the side-effect
    phase left its trace. *)
Lemma decision_cases env d b w :
  let w' := exec env (decision_event d b) w in
  messages_id_seq w' = messages_id_seq w /\
  ((exists msg r,
      tbl w' = tbl w /\
      effects w' = (effects w ++ Ack :: error_report env d b msg r)%list /\
      (pg_fault env (stmts w) <> None \/
       pg_fault env (S (stmts w)) <> None \/
       pg_int4 (parseInt env (body_action_value b)) = None \/
       exists z, parseInt env (body_action_value b) = Num z /\ find_row z (tbl w) = None))
   \/
   (exists n X r1 r2 r3,
      parseInt env (body_action_value b) = Num n /\
      find_row n (tbl w) = Some X /\
      tbl w' = update_where n (set_status (decision_status d) (NOW env (S (stmts w)))) (tbl w) /\
      effects w' = (effects w ++ Ack :: decision_trace env d b X r1 r2 r3)%list)).
Proof.
  destruct d; run_handler.
  all: destruct (pg_fault env (stmts w)) eqn:Hq;
       cbn [tbl effects stmts messages_id_seq fst snd await].
  all: try before_commit.
  all: destruct (pg_int4 (parseInt env (body_action_value b))) as [z|] eqn:Hz;
       cbn [tbl effects stmts messages_id_seq fst snd await].
  all: try before_commit.
  all: destruct (find_row z (tbl w)) as [X|] eqn:Hx;
       [ destruct (filter_find_some _ _ _ Hx) as [rest ->]
       | rewrite (filter_find_none _ _ Hx) ];
       cbn [tbl effects stmts messages_id_seq fst snd await].
  all: try before_commit.
  all: destruct (pg_fault env (S (stmts w))) eqn:Hq2;
       cbn [tbl effects stmts messages_id_seq fst snd await].
  all: try before_commit.
  all: apply pg_int4_Some in Hz.
  all: repeat case_env; (split; [reflexivity|]); right; exists z, X.
  all: pick_reply_post; pick_reply_update; pick_reply_notice.
  all: split; [exact Hz|]; split; [exact Hx|]; split; [reflexivity|].
  all: unfold decision_trace, card_trace, error_report, private_notice, decision_verb,
         decision_card, relay, accepted_card, denied_card; log_eq.
Qed.

(** When the submission exists and both statements are served, the decision
    is committed. *)
Lemma decision_commits env d b w n X :
  parseInt env (body_action_value b) = Num n ->
  find_row n (tbl w) = Some X ->
  pg_int4 (Num n) = Some n ->
  pg_fault env (stmts w) = None ->
  pg_fault env (S (stmts w)) = None ->
  let w' := exec env (decision_event d b) w in
  tbl w' = update_where n (set_status (decision_status d) (NOW env (S (stmts w)))) (tbl w) /\
  exists r1 r2 r3,
    effects w' = (effects w ++ Ack :: decision_trace env d b X r1 r2 r3)%list.
Proof.
  intros Hp Hx Hi Hq1 Hq2 w'.
  destruct (decision_cases env d b w) as [_ [H|H]]; fold w' in H.
  - destruct H as [msg [r [_ [_ [E|[E|[E|[z [Ez Hz]]]]]]]]].
    + congruence.
    + congruence.
    + rewrite Hp, Hi in E. discriminate E.
    + rewrite Hp in Ez. injection Ez as <-. congruence.
  - destruct H as [n' [X' [r1 [r2 [r3 [Hp' [Hx' [Ht He]]]]]]]].
    rewrite Hp in Hp'. injection Hp' as <-.
    rewrite Hx in Hx'. injection Hx' as <-.
    split; [exact Ht|]. now exists r1, r2, r3.
Qed.

(** ** Traces of a decision *)

Lemma error_report_no_post env d b m r :
  existsb is_postMessage (error_report env d b m r) = false.
Proof. reflexivity. Qed.

Lemma card_trace_no_post env d b X r2 r3 :
  existsb is_postMessage (card_trace env d b X r2 r3) = false.
Proof. destruct d, r2; reflexivity. Qed.

Lemma decision_trace_posts env d b X r1 r2 r3 :
  filter is_postMessage (decision_trace env d b X r1 r2 r3)
  = match d with
    | Accept => [Slack (relay env X) r1]
    | Deny => []
    end.
Proof. destruct d, r1, r2; reflexivity. Qed.

(** ** Rows across a handler *)

Lemma nth_error_update_where z f t k :
  nth_error (update_where z f t) k
  = option_map (fun r => if id r =? z then f r else r) (nth_error t k).
Proof. unfold update_where. apply nth_error_map. Qed.

Lemma find_row_update_where z f t :
  (forall r, id (f r) = id r) ->
  find_row z (update_where z f t) = option_map f (find_row z t).
Proof.
  intros Hid. unfold find_row, update_where.
  induction t as [|r t IH]; simpl; [reflexivity|].
  destruct (id r =? z) eqn:E.
  - rewrite Hid, E. reflexivity.
  - rewrite E. exact IH.
Qed.

Lemma terminal_decision_status d : terminal (decision_status d).
Proof. destruct d; [left | right]; reflexivity. Qed.

Lemma pending_not_terminal : ~ terminal "pending".
Proof. intros [H|H]; discriminate H. Qed.

(** The row a submission inserts. *)
Lemma impression_id_new_row env b v w r :
  new_row (tbl w) (tbl (exec env (on_impression_id b v) w)) r ->
  user_hash r = Md5.md5_hex (body_user_id b) /\
  message r = view_dreamy_input_value v /\
  status r = "pending" /\ reviewed_at r = None.
Proof.
  intros [k [Hk Hr]].
  destruct (impression_id_rows env b v w) as [E | [newid [th [ch [E | [ts E]]]]]];
    rewrite E in Hr.
  - apply nth_error_None in Hk. congruence.
  - rewrite nth_error_app2 in Hr by exact Hk.
    destruct (k - List.length (tbl w))%nat as [|[|j]]; simpl in Hr; try discriminate.
    injection Hr as <-. repeat split.
  - rewrite nth_error_update_where, nth_error_app2 in Hr by exact Hk.
    destruct (k - List.length (tbl w))%nat as [|[|j]]; simpl in Hr; try discriminate.
    rewrite Z.eqb_refl in Hr. injection Hr as <-. repeat split.
Qed.

(** A row stays where it is and keeps what the submitter gave; only a
    decision on its [id] writes [status] and [reviewed_at], both at once. *)
Lemma exec_rows env e w k r :
  nth_error (tbl w) k = Some r ->
  exists r',
    nth_error (tbl (exec env e w)) k = Some r' /\ same_submission r r' /\
    ((status r' = status r /\ reviewed_at r' = reviewed_at r) \/
     exists d b,
       e = decision_event d b /\
       parseInt env (body_action_value b) = Num (id r) /\
       status r' = decision_status d /\
       reviewed_at r' = Some (NOW env (S (stmts w)))).
Proof.
  intros Hr.
  assert (Hsame : exists r', nth_error (tbl w) k = Some r' /\ same_submission r r' /\
            ((status r' = status r /\ reviewed_at r' = reviewed_at r) \/
             exists d b, e = decision_event d b /\
               parseInt env (body_action_value b) = Num (id r) /\
               status r' = decision_status d /\
               reviewed_at r' = Some (NOW env (S (stmts w)))))
    by (exists r; unfold same_submission; auto 10).
  assert (Hdec : forall d b, e = decision_event d b ->
            exists r', nth_error (tbl (exec env e w)) k = Some r' /\ same_submission r r' /\
            ((status r' = status r /\ reviewed_at r' = reviewed_at r) \/
             exists d b, e = decision_event d b /\
               parseInt env (body_action_value b) = Num (id r) /\
               status r' = decision_status d /\
               reviewed_at r' = Some (NOW env (S (stmts w))))).
  { intros d b ->.
    destruct (decision_cases env d b w) as [_ [H|H]].
    - destruct H as [msg [rp [-> _]]]. exact Hsame.
    - destruct H as [n [X [r1 [r2 [r3 [Hp [_ [-> _]]]]]]]].
      rewrite nth_error_update_where, Hr. simpl.
      destruct (Z.eqb_spec (id r) n) as [E|E].
      + eexists; split; [reflexivity|]. split; [repeat split|].
        right. exists d, b. subst n. auto.
      + exists r. unfold same_submission; auto 10. }
  destruct e as [b|b|b|b|b v].
  - exact (Hdec Accept b eq_refl).
  - exact (Hdec Deny b eq_refl).
  - rewrite delete_me_tbl. exact Hsame.
  - rewrite reply_impression_tbl. exact Hsame.
  - assert (Hk : (k < List.length (tbl w))%nat)
      by (apply nth_error_Some; congruence).
    destruct (impression_id_rows env b v w) as [E | [newid [th [ch [E | [ts E]]]]]];
      rewrite E.
    + exact Hsame.
    + rewrite nth_error_app1 by exact Hk. exact Hsame.
    + rewrite nth_error_update_where, nth_error_app1, Hr by exact Hk. simpl.
      destruct (id r =? newid).
      * eexists; split; [reflexivity|]. split; [repeat split | left; split; reflexivity].
      * exists r. unfold same_submission; auto 10.
Qed.

(** Only a submission adds rows. *)
Lemma new_row_is_submitted env e w r :
  new_row (tbl w) (tbl (exec env e w)) r ->
  exists b v, e = on_impression_id b v.
Proof.
  intros [k [Hk Hr]]. apply nth_error_None in Hk.
  assert (Hdec : forall d b, e = decision_event d b -> False).
  { intros d b ->.
    destruct (decision_cases env d b w) as [_ [H|H]].
    - destruct H as [msg [rp [E _]]]. rewrite E in Hr. congruence.
    - destruct H as [n [X [r1 [r2 [r3 [_ [_ [E _]]]]]]]].
      rewrite E, nth_error_update_where, Hk in Hr. discriminate Hr. }
  destruct e as [b|b|b|b|b v].
  - elim (Hdec Accept b eq_refl).
  - elim (Hdec Deny b eq_refl).
  - rewrite delete_me_tbl in Hr. congruence.
  - rewrite reply_impression_tbl in Hr. congruence.
  - eauto.
Qed.

Lemma exec_keeps_invariant env e w :
  Forall reviewed_iff_terminal (tbl w) ->
  Forall reviewed_iff_terminal (tbl (exec env e w)).
Proof.
  intros Hw. apply Forall_forall. intros r' Hin.
  apply In_nth_error in Hin. destruct Hin as [k Hk].
  destruct (nth_error (tbl w) k) as [r|] eqn:Hr.
  - destruct (exec_rows env e w k r Hr) as [r'' [Hk' [_ H]]].
    rewrite Hk in Hk'. injection Hk' as <-.
    assert (Hinv : reviewed_iff_terminal r).
    { rewrite Forall_forall in Hw. apply Hw. eapply nth_error_In; eassumption. }
    unfold reviewed_iff_terminal in *.
    destruct H as [[-> ->] | [d [b [_ [_ [-> ->]]]]]]; [exact Hinv|].
    split; [intros _; apply terminal_decision_status | discriminate].
  - assert (Hnew : new_row (tbl w) (tbl (exec env e w)) r').
    { exists k. split; [now apply nth_error_None | exact Hk]. }
    destruct (new_row_is_submitted env e w r' Hnew) as [b [v ->]].
    destruct (impression_id_new_row env b v w r' Hnew) as [_ [_ [Hs Hrv]]].
    unfold reviewed_iff_terminal. rewrite Hs, Hrv. split.
    + intros H; now elim H.
    + intros H; now elim pending_not_terminal.
Qed.

Lemma run_keeps_invariant env es w :
  Forall reviewed_iff_terminal (tbl w) ->
  Forall reviewed_iff_terminal (tbl (run env es w)).
Proof.
  revert w. induction es as [|e es IH]; intros w Hw; simpl; [exact Hw|].
  apply IH. now apply exec_keeps_invariant.
Qed.

Lemma update_where_keeps z f t :
  (forall r, reviewed_iff_terminal r -> reviewed_iff_terminal (f r)) ->
  Forall reviewed_iff_terminal t ->
  Forall reviewed_iff_terminal (update_where z f t).
Proof.
  intros Hf Ht. unfold update_where. apply Forall_map.
  eapply Forall_impl; [|exact Ht]. intros r Hr. simpl.
  destruct (id r =? z); auto.
Qed.

(** Each statement that writes the table keeps the invariant on its own. *)
Lemma statements_keep_invariant env w :
  Forall reviewed_iff_terminal (tbl w) ->
  (forall d x, Forall reviewed_iff_terminal
                 (tbl (snd (update_status (decision_status d) x env w)))) /\
  (forall ts x, Forall reviewed_iff_terminal
                  (tbl (snd (update_review_message_ts ts x env w)))) /\
  (forall h m th ch, Forall reviewed_iff_terminal
                       (tbl (snd (insert_message h m "pending" th ch env w)))).
Proof.
  intros Hw. split; [|split].
  - intros d x. destruct d; run_statement;
      rewrite ?varchar_accepted, ?varchar_denied; repeat case_env; try exact Hw.
    + apply update_where_keeps; [|exact Hw]. intros r _.
      split; [intros _; left; reflexivity | discriminate].
    + apply update_where_keeps; [|exact Hw]. intros r _.
      split; [intros _; right; reflexivity | discriminate].
  - intros ts x. run_statement. repeat case_env; try exact Hw.
    apply update_where_keeps; [|exact Hw]. intros r Hr. exact Hr.
  - intros h m th ch. run_statement. rewrite varchar_pending.
    repeat case_env; try exact Hw.
    apply Forall_app. split; [exact Hw|]. constructor; [|constructor].
    split; [intros H; now elim H | intros H; now elim pending_not_terminal].
Qed.

(** * The claims *)

(** C1, as stated, does not hold.  R1 accepts submission 1; the status
    update commits, the relay into the thread is refused, so the review card
    is not edited and keeps its buttons.  R1 then clicks deny on the same
    card: the decision is applied again.  The stored status goes from
    pending to accepted and then from accepted to denied, and [reviewed_at]
    is rewritten by the second decision. *)
Lemma second_decision_overwrites :
  let env := scenario_env None [] slack_no_thread in
  let w0 := submitted env in
  let w1 := exec env (on_accept_impression R1) w0 in
  let w2 := exec env (on_deny_impression R1) w1 in
  map (fun r => (id r, status r, reviewed_at r)) (tbl w0) = [(1, "pending", None)] /\
  map (fun r => (id r, status r, reviewed_at r)) (tbl w1) = [(1, "accepted", Some 1003)] /\
  filter is_postMessage (skipn (List.length (effects w0)) (effects w1))
  = [Slack (chat_postMessage "xoxb-token" "C029QJD8M0D"
              (Some "1700000000.000100") "nice job" [])
           (failed "thread_not_found")] /\
  existsb (fun e => match e with Slack (chat_update _ _ _ _ _) _ => true | _ => false end)
          (effects w1) = false /\
  map (fun r => (id r, status r, reviewed_at r)) (tbl w2) = [(1, "denied", Some 1005)].
Proof. vm_compute. repeat split. Qed.

(** C1 (amended): for every submission and every event, the row keeps its
    place, its id, fingerprint, text, creation time, thread and channel, and
    its status and [reviewed_at] either both stay as they were, or the event
    is a decision (accept or deny) on the row's id, and then the status is
    the one of that decision (accepted or denied, never pending) and
    [reviewed_at] is the time of the update.  A decision on an existing
    submission whose statements are served is always applied, whatever the
    status was before: a terminal status is overwritten, not protected. *)
Theorem status_written_by_decisions_only env e w k r :
  nth_error (tbl w) k = Some r ->
  (exists r',
     nth_error (tbl (exec env e w)) k = Some r' /\ same_submission r r' /\
     ((status r' = status r /\ reviewed_at r' = reviewed_at r) \/
      exists d b,
        e = decision_event d b /\
        parseInt env (body_action_value b) = Num (id r) /\
        status r' = decision_status d /\
        reviewed_at r' = Some (NOW env (S (stmts w))))) /\
  (forall d b,
     e = decision_event d b ->
     parseInt env (body_action_value b) = Num (id r) ->
     pg_int4 (Num (id r)) = Some (id r) ->
     pg_fault env (stmts w) = None ->
     pg_fault env (S (stmts w)) = None ->
     exists r',
       nth_error (tbl (exec env e w)) k = Some r' /\
       status r' = decision_status d /\
       reviewed_at r' = Some (NOW env (S (stmts w)))).
Proof.
  intros Hr. split; [now apply exec_rows|].
  intros d b -> Hp Hi Hq1 Hq2.
  destruct (find_row_In (tbl w) r) as [X HX]; [eapply nth_error_In; eassumption|].
  destruct (decision_commits env d b w (id r) X Hp HX Hi Hq1 Hq2) as [Ht _].
  rewrite Ht, nth_error_update_where, Hr. simpl. rewrite Z.eqb_refl.
  eexists; split; [reflexivity|]. split; reflexivity.
Qed.

Lemma status_written_by_decisions_only_witness :
  let env := scenario_env None [] slack_up in
  let w1 := exec env (on_accept_impression R1) (submitted env) in
  exists r r',
    nth_error (tbl w1) 0 = Some r /\ status r = "accepted" /\
    nth_error (tbl (exec env (on_deny_impression R1) w1)) 0 = Some r' /\
    status r' = "denied" /\ reviewed_at r' = Some 1005.
Proof.
  intros env w1.
  pose (X := mkRow 1 "f89412c11bdc0ab44f99f92d5e9a3c5e" "nice job" "accepted"
               1000 (Some 1003) (Some "1700000001.000200")
               (Some "1700000000.000100") (Some "C02A6BRM2JD")).
  assert (Hr : nth_error (tbl w1) 0 = Some X) by (vm_compute; reflexivity).
  destruct (status_written_by_decisions_only env (on_deny_impression R1) w1 0%nat X Hr)
    as [_ Hre].
  destruct (Hre Deny R1 eq_refl eq_refl eq_refl eq_refl eq_refl) as [r' [Hk [Hs Ht]]].
  exists X, r'. split; [exact Hr|]. split; [reflexivity|].
  split; [exact Hk|]. split; [exact Hs|]. rewrite Ht. vm_compute. reflexivity.
Defined.

(** C2, as stated, does not hold: the submission stored with channel
    C02A6BRM2JD is relayed, on acceptance, into C029QJD8M0D, the channel
    [HONEST_IMPRESSIONS_CHANNEL_ID] defaults to; the stored [channel_id]
    is not read. *)
Lemma relay_ignores_stored_channel :
  let env := scenario_env None [] slack_up in
  let w := submitted env in
  let w' := exec env (on_accept_impression R1) w in
  map (fun r => (id r, message r, thread_ts r, channel_id r)) (tbl w)
  = [(1, "nice job", Some "1700000000.000100", Some "C02A6BRM2JD")] /\
  filter is_postMessage (skipn (List.length (effects w)) (effects w'))
  = [Slack (chat_postMessage "xoxb-token" "C029QJD8M0D"
              (Some "1700000000.000100") "nice job" [])
           (ok "1700000001.000200")].
Proof. vm_compute. split; reflexivity. Qed.

(** C2 (amended): accepting never posts more than one message; and for
    every submission X that exists, when the lookup and the status update
    are served, accepting X posts exactly one message, whose text is X's
    stored text and whose thread is X's stored [thread_ts], into the
    configured honest-impressions channel ([HONEST_IMPRESSIONS_CHANNEL_ID],
    by default C029QJD8M0D) rather than into X's stored [channel_id]; the
    rest of what it emits contains no other post. *)
Theorem accept_relays_once env b w :
  let w' := exec env (on_accept_impression b) w in
  (exists new,
     effects w' = (effects w ++ new)%list /\
     (List.length (filter is_postMessage new) <= 1)%nat) /\
  (forall n X,
     parseInt env (body_action_value b) = Num n ->
     find_row n (tbl w) = Some X ->
     pg_int4 (Num n) = Some n ->
     pg_fault env (stmts w) = None ->
     pg_fault env (S (stmts w)) = None ->
     exists r rest,
       effects w' =
         (effects w ++
          Ack :: Slack (chat_postMessage (SLACK_BOT_TOKEN env)
                          (js_or (HONEST_IMPRESSIONS_CHANNEL_ID env) "C029QJD8M0D")
                          (thread_ts X) (message X) []) r :: rest)%list /\
       existsb is_postMessage rest = false).
Proof.
  intros w'. subst w'. split.
  - destruct (decision_cases env Accept b w) as [_ [H|H]]; cbn [decision_event] in H.
    + destruct H as [msg [r [_ [-> _]]]]. eexists; split; [reflexivity|].
      simpl. lia.
    + destruct H as [n [X [r1 [r2 [r3 [_ [_ [_ ->]]]]]]]].
      eexists; split; [reflexivity|].
      cbn [filter is_postMessage]. rewrite decision_trace_posts. simpl. lia.
  - intros n X Hp Hx Hi Hq1 Hq2.
    destruct (decision_commits env Accept b w n X Hp Hx Hi Hq1 Hq2)
      as [_ [r1 [r2 [r3 He]]]]; cbn [decision_event] in He.
    rewrite He. exists r1. eexists. split; [reflexivity|].
    destruct r1; [apply card_trace_no_post | apply error_report_no_post].
Qed.

Lemma accept_relays_once_witness :
  let env := scenario_env (Some "C0HONEST") [] slack_up in
  exists X r rest,
    find_row 1 (tbl (submitted env)) = Some X /\
    channel_id X = Some "C02A6BRM2JD" /\
    effects (exec env (on_accept_impression R1) (submitted env)) =
      (effects (submitted env) ++
       Ack :: Slack (chat_postMessage "xoxb-token" "C0HONEST"
                       (Some "1700000000.000100") "nice job" []) r :: rest)%list /\
    existsb is_postMessage rest = false.
Proof.
  intros env.
  pose (X := mkRow 1 "f89412c11bdc0ab44f99f92d5e9a3c5e" "nice job" "pending"
               1000 None (Some "1700000001.000200")
               (Some "1700000000.000100") (Some "C02A6BRM2JD")).
  assert (HX : find_row 1 (tbl (submitted env)) = Some X) by (vm_compute; reflexivity).
  destruct (accept_relays_once env R1 (submitted env)) as [_ H].
  destruct (H 1 X eq_refl HX eq_refl eq_refl eq_refl) as [r [rest [He Hn]]].
  exists X, r, rest. split; [exact HX|]. split; [reflexivity|].
  split; [exact He | exact Hn].
Defined.

(** C3: for every submitter on the deny-list, whatever the channel and
    whatever text they would type, the reply shortcut touches no row, asks
    the store nothing, and its only call to the platform is the private
    notice of rejection to that submitter; no modal is opened, so the
    submission flow ends there: no row is inserted and no review card is
    posted. *)
Theorem banned_submitter_creates_nothing env b w text :
  In (body_user_id b) (banList env) ->
  let w' := exec env (on_reply_impression b) w in
  (tbl w' = tbl w /\ messages_id_seq w' = messages_id_seq w /\ stmts w' = stmts w /\
   exists r,
     effects w' =
       (effects w ++
        [Ack; Slack (private_notice env b
                       "You are not allowed to submit honest impressions.") r])%list) /\
  snd (submission_flow b text env w) = w'.
Proof.
  intros Hban. apply includes_In in Hban.
  unfold submission_flow. run_handler. rewrite Hban.
  cbn [tbl effects stmts messages_id_seq fst snd await].
  split.
  - repeat case_env; repeat split; eexists; log_eq.
  - repeat case_env; rewrite last_last; reflexivity.
Qed.

Lemma banned_submitter_creates_nothing_witness :
  In "U1" ["U0"; "U1"] /\
  let env := scenario_env None ["U0"; "U1"] slack_up in
  let w' := exec env (on_reply_impression U1) init_world in
  (tbl w' = [] /\ messages_id_seq w' = 1 /\ stmts w' = 0%nat /\
   exists r,
     effects w' =
       ([] ++
        [Ack; Slack (private_notice env U1
                       "You are not allowed to submit honest impressions.") r])%list) /\
  snd (submission_flow U1 "anything" env init_world) = w'.
Proof.
  assert (Hban : In "U1" ["U0"; "U1"]) by (right; left; reflexivity).
  split; [exact Hban|].
  exact (banned_submitter_creates_nothing
           (scenario_env None ["U0"; "U1"] slack_up) U1 init_world "anything" Hban).
Defined.

(** C4: in every state the handlers can reach from the empty table (or
    from any table that has the property), under any behaviour of the store
    and of the platform, every row has [reviewed_at] set if and only if its
    status is accepted or denied.  A row just created has status pending and
    no [reviewed_at]; and a decision leaves a row's status and [reviewed_at]
    both untouched or writes both in its one [UPDATE].  Since any statement
    or call of a handler may be its last, the states between two statements
    of a handler are among the reachable ones; and each statement that
    writes the table (the update of status and [reviewed_at] by a decision,
    the update of [review_message_ts], the insertion of a pending row) keeps
    the property by itself, from any table that has it. *)
Theorem reviewed_at_iff_terminal env es :
  Forall reviewed_iff_terminal (tbl (run env es init_world)) /\
  (forall w,
     Forall reviewed_iff_terminal (tbl w) ->
     Forall reviewed_iff_terminal (tbl (run env es w))) /\
  (forall w,
     Forall reviewed_iff_terminal (tbl w) ->
     (forall d x, Forall reviewed_iff_terminal
                    (tbl (snd (update_status (decision_status d) x env w)))) /\
     (forall ts x, Forall reviewed_iff_terminal
                     (tbl (snd (update_review_message_ts ts x env w)))) /\
     (forall h m th ch, Forall reviewed_iff_terminal
                          (tbl (snd (insert_message h m "pending" th ch env w))))) /\
  (forall b v w r,
     new_row (tbl w) (tbl (exec env (on_impression_id b v) w)) r ->
     status r = "pending" /\ reviewed_at r = None) /\
  (forall d b w k r r',
     nth_error (tbl w) k = Some r ->
     nth_error (tbl (exec env (decision_event d b) w)) k = Some r' ->
     (status r' = status r /\ reviewed_at r' = reviewed_at r) \/
     (status r' = decision_status d /\
      reviewed_at r' = Some (NOW env (S (stmts w))))).
Proof.
  split; [|split; [|split; [|split]]].
  - apply run_keeps_invariant. constructor.
  - intros w. apply run_keeps_invariant.
  - intros w. apply statements_keep_invariant.
  - intros b v w r H. now destruct (impression_id_new_row env b v w r H) as [_ [_ H']].
  - intros d b w k r r' Hr Hr'.
    destruct (exec_rows env (decision_event d b) w k r Hr) as [r'' [Hk [_ H]]].
    rewrite Hr' in Hk. injection Hk as <-.
    destruct H as [H | [d' [b' [E [_ H]]]]]; [now left | right].
    destruct d, d'; try discriminate E; exact H.
Qed.

Lemma reviewed_at_iff_terminal_witness :
  let env := scenario_env None [] slack_no_thread in
  Forall reviewed_iff_terminal
    (tbl (run env [on_reply_impression U1; on_impression_id U1 nice_job;
                   on_accept_impression R1; on_deny_impression R1] init_world)) /\
  (exists r, nth_error (tbl (submitted env)) 0 = Some r /\
             status r = "pending" /\ reviewed_at r = None) /\
  (exists r r',
     nth_error (tbl (submitted env)) 0 = Some r /\
     nth_error (tbl (exec env (on_accept_impression R1) (submitted env))) 0 = Some r' /\
     status r' = "accepted" /\ reviewed_at r' = Some 1003).
Proof.
  intros env.
  destruct (reviewed_at_iff_terminal env
              [on_reply_impression U1; on_impression_id U1 nice_job;
               on_accept_impression R1; on_deny_impression R1])
    as [Hinv [_ [_ [Hnew Hdec]]]].
  pose (X := mkRow 1 "f89412c11bdc0ab44f99f92d5e9a3c5e" "nice job" "pending"
               1000 None (Some "1700000001.000200")
               (Some "1700000000.000100") (Some "C02A6BRM2JD")).
  assert (HX : nth_error (tbl (submitted env)) 0 = Some X) by (vm_compute; reflexivity).
  split; [exact Hinv|]. split.
  - exists X. split; [exact HX|].
    apply (Hnew U1 nice_job (exec env (on_reply_impression U1) init_world)).
    exists 0%nat. split; [vm_compute; lia | exact HX].
  - pose (X' := set_status "accepted" 1003 X).
    assert (HX' : nth_error (tbl (exec env (decision_event Accept R1) (submitted env))) 0
                  = Some X') by (vm_compute; reflexivity).
    exists X, X'. split; [exact HX|]. split; [exact HX'|].
    destruct (Hdec Accept R1 (submitted env) 0%nat X X' HX HX') as [[E _] | [E1 E2]].
    + discriminate E.
    + split; [exact E1 | rewrite E2; vm_compute; reflexivity].
Defined.

(** C5, as stated, does not hold: with [HONEST_IMPRESSIONS_CHANNEL_ID] set
    to C029QJD8M0D, a reply from that channel, which is not one of the three
    fixed channels, by a user who is not the override identity, opens the
    form, and submitting it creates a record. *)
Lemma configured_channel_is_permitted :
  let env := scenario_env (Some "C029QJD8M0D") [] slack_up in
  let b := mkBody "U1" "C029QJD8M0D" "1700000000.000100" "1700000000.000100"
                  "trigger-1" "" in
  ~ In (body_channel_id b) permitted_channels /\
  ~ In (body_user_id b) override_users /\
  effects (exec env (on_reply_impression b) init_world)
  = [Ack; Slack (views_open "trigger-1" (impression_modal b)) (ok "1700000001.000200")] /\
  map (fun r => (id r, message r, status r))
      (tbl (snd (submission_flow b "nice job" env init_world)))
  = [(1, "nice job", "pending")].
Proof.
  split; [|split; [|split]].
  - intros [H | [H | [H | []]]]; discriminate H.
  - intros [H | []]; discriminate H.
  - vm_compute. reflexivity.
  - vm_compute. reflexivity.
Qed.

(** C5 (amended): for every submitter other than the override identity and
    every channel that is neither one of the three fixed channels nor the
    configured [HONEST_IMPRESSIONS_CHANNEL_ID], the reply shortcut touches
    no row, asks the store nothing, and its only call to the platform is one
    private notice to the submitter: the redirect notice, or the rejection
    notice when the submitter is on the deny-list.  No form is opened, so
    the submission flow ends there and no row is inserted. *)
Theorem outside_permitted_channels_creates_nothing env b w text :
  ~ In (body_channel_id b) permitted_channels ->
  HONEST_IMPRESSIONS_CHANNEL_ID env <> Some (body_channel_id b) ->
  ~ In (body_user_id b) override_users ->
  let w' := exec env (on_reply_impression b) w in
  (tbl w' = tbl w /\ messages_id_seq w' = messages_id_seq w /\ stmts w' = stmts w /\
   exists r,
     effects w' =
       (effects w ++
        [Ack; Slack (private_notice env b
                       (if includes (banList env) (body_user_id b)
                        then "You are not allowed to submit honest impressions."
                        else "Post the honest impression in <#C029QJD8M0D>")) r])%list) /\
  snd (submission_flow b text env w) = w'.
Proof.
  intros Hc He Hu. apply includes_not_In in Hc. apply includes_not_In in Hu.
  assert (Hh : is_honest_env_channel env (body_channel_id b) = false).
  { unfold is_honest_env_channel. destruct (HONEST_IMPRESSIONS_CHANNEL_ID env) as [s|];
      [|reflexivity]. apply String.eqb_neq. congruence. }
  unfold submission_flow. run_handler. rewrite Hc, Hh, Hu.
  cbn [negb andb tbl effects stmts messages_id_seq fst snd await].
  split.
  - destruct (includes (banList env) (body_user_id b));
      repeat case_env; repeat split; eexists; log_eq.
  - destruct (includes (banList env) (body_user_id b));
      repeat case_env; rewrite last_last; reflexivity.
Qed.

Lemma outside_permitted_channels_creates_nothing_witness :
  let env := scenario_env (Some "C029QJD8M0D") ["U0"] slack_up in
  let w' := exec env (on_reply_impression U1_elsewhere) init_world in
  (~ In "C0RANDOM" permitted_channels /\
   Some "C029QJD8M0D" <> Some "C0RANDOM" /\
   ~ In "U1" override_users) /\
  (tbl w' = [] /\ messages_id_seq w' = 1 /\ stmts w' = 0%nat /\
   exists r,
     effects w' =
       ([] ++
        [Ack; Slack (private_notice env U1_elsewhere
                       (if includes ["U0"] "U1"
                        then "You are not allowed to submit honest impressions."
                        else "Post the honest impression in <#C029QJD8M0D>")) r])%list) /\
  snd (submission_flow U1_elsewhere "nice job" env init_world) = w'.
Proof.
  assert (H1 : ~ In "C0RANDOM" permitted_channels)
    by (intros [H | [H | [H | []]]]; discriminate H).
  assert (H2 : Some "C029QJD8M0D" <> Some "C0RANDOM") by discriminate.
  assert (H3 : ~ In "U1" override_users) by (intros [H | []]; discriminate H).
  split; [auto|].
  exact (outside_permitted_channels_creates_nothing
           (scenario_env (Some "C029QJD8M0D") ["U0"] slack_up)
           U1_elsewhere init_world "nice job" H1 H2 H3).
Defined.

(** C6: for every decision (accept or deny) on an existing submission, in
    particular a pending one, if the log of the run shows a failed call of
    the side-effect phase (the relay or the edit of the review card, failing
    with message [m]), then the table is exactly what the status update
    committed: the submission has the status of the decision and
    [reviewed_at] at the time of the update, nothing is rolled back; and
    after the calls of the side-effect phase the handler only writes the
    error to the console and sends one private notice carrying [m] to the
    acting reviewer, in the channel of the review card. *)
Theorem side_effect_failure_keeps_commit env d b w n X c m :
  parseInt env (body_action_value b) = Num n ->
  find_row n (tbl w) = Some X ->
  is_side_effect c = true ->
  let w' := exec env (decision_event d b) w in
  (exists new, effects w' = (effects w ++ new)%list /\ In (Slack c (failed m)) new) ->
  tbl w' = update_where n (set_status (decision_status d) (NOW env (S (stmts w)))) (tbl w) /\
  (exists X',
     find_row n (tbl w') = Some X' /\ same_submission X X' /\
     status X' = decision_status d /\
     reviewed_at X' = Some (NOW env (S (stmts w)))) /\
  exists calls r,
    effects w' = (effects w ++ Ack :: calls ++ error_report env d b m r)%list /\
    forallb is_side_effect_call calls = true.
Proof.
  intros Hp Hx Hc w' [new [Hnew Hin]]. subst w'.
  destruct (decision_cases env d b w) as [_ [H|H]].
  - exfalso. destruct H as [msg [r [_ [He _]]]].
    rewrite He in Hnew. apply app_inv_head in Hnew. subst new.
    destruct Hin as [E | [E | [E | []]]]; try discriminate E.
    injection E as <- _. discriminate Hc.
  - destruct H as [n' [X' [r1 [r2 [r3 [Hp' [Hx' [Ht He]]]]]]]].
    rewrite Hp in Hp'. injection Hp' as <-.
    rewrite Hx in Hx'. injection Hx' as <-.
    split; [exact Ht|]. split.
    + rewrite Ht, find_row_update_where, Hx by reflexivity.
      eexists; split; [reflexivity|]. repeat split.
    + rewrite He in Hnew. apply app_inv_head in Hnew. subst new.
      rewrite He. clear He Ht.
      destruct d, r1, r2; cbn in Hin; unfold private_notice in Hin;
        repeat match goal with
        | H : _ \/ _ |- _ => destruct H as [H | H]
        | H : False |- _ => destruct H
        | H : Ack = _ |- _ => discriminate H
        | H : ConsoleError _ _ = _ |- _ => discriminate H
        | H : Slack _ (ok _) = Slack _ (failed _) |- _ => discriminate H
        | H : Slack (chat_postEphemeral _ _ _ _) _ = Slack c _ |- _ =>
            injection H as <- _; discriminate Hc
        | H : Slack _ (failed _) = Slack _ (failed _) |- _ => injection H as _ <-
        end.
      all: match goal with
           | |- context [decision_trace _ Accept _ _ (ok ?t) (failed ?m') ?r] =>
               exists [Slack (relay env X) (ok t);
                       Slack (accepted_card env b X) (failed m')], r
           | |- context [decision_trace _ Accept _ _ (failed ?m') _ ?r] =>
               exists [Slack (relay env X) (failed m')], r
           | |- context [decision_trace _ Deny _ _ _ (failed ?m') ?r] =>
               exists [Slack (denied_card env b X) (failed m')], r
           end; split; reflexivity.
Qed.

Lemma side_effect_failure_keeps_commit_witness :
  let env := scenario_env None [] slack_no_update in
  let w := submitted env in
  let w' := exec env (decision_event Accept R1) w in
  exists X,
    find_row 1 (tbl w) = Some X /\ status X = "pending" /\
    In (Slack (accepted_card env R1 X) (failed "message_not_found")) (effects w') /\
    map (fun r => (status r, reviewed_at r)) (tbl w') = [("accepted", Some 1003)] /\
    exists calls r,
      effects w' = (effects w ++ Ack :: calls ++
                    error_report env Accept R1 "message_not_found" r)%list /\
      forallb is_side_effect_call calls = true.
Proof.
  intros env w w'.
  pose (X := mkRow 1 "f89412c11bdc0ab44f99f92d5e9a3c5e" "nice job" "pending"
               1000 None (Some "1700000001.000200")
               (Some "1700000000.000100") (Some "C02A6BRM2JD")).
  assert (HX : find_row 1 (tbl w) = Some X) by (vm_compute; reflexivity).
  assert (Hfail : exists new,
            effects w' = (effects w ++ new)%list /\
            In (Slack (accepted_card env R1 X) (failed "message_not_found")) new).
  { eexists. split; [vm_compute; reflexivity|].
    right; right; left. reflexivity. }
  destruct (side_effect_failure_keeps_commit env Accept R1 w 1 X
              (accepted_card env R1 X) "message_not_found"
              eq_refl HX eq_refl Hfail)
    as [Ht [_ Hrep]].
  exists X. split; [exact HX|]. split; [reflexivity|]. split; [|split].
  - vm_compute. do 7 right. left. reflexivity.
  - unfold w'. rewrite Ht. vm_compute. reflexivity.
  - exact Hrep.
Defined.

(** C7: for every decision (accept or deny) whose submission id matches no
    stored row, the table and the id sequence are left as they were, and all
    the handler emits is the acknowledgement, the error on the console and
    one private notice to the acting reviewer, in the channel of the review
    card, carrying the error's message; when the lookup itself is served,
    that message is "Message not found". *)
Theorem decision_on_unknown_id env d b w :
  (forall r, In r (tbl w) -> parseInt env (body_action_value b) <> Num (id r)) ->
  let w' := exec env (decision_event d b) w in
  tbl w' = tbl w /\ messages_id_seq w' = messages_id_seq w /\
  exists msg r,
    effects w' = (effects w ++ Ack :: error_report env d b msg r)%list /\
    (pg_fault env (stmts w) = None ->
     pg_int4 (parseInt env (body_action_value b)) <> None ->
     msg = "Message not found").
Proof.
  intros Hno.
  assert (Hf : forall z, pg_int4 (parseInt env (body_action_value b)) = Some z ->
                         filter (fun r => id r =? z) (tbl w) = []).
  { intros z Hz. apply no_match_filter. intros r Hr E.
    apply (Hno r Hr). rewrite (pg_int4_Some _ _ Hz). now rewrite E. }
  destruct d; run_handler.
  all: repeat case_env.
  all: try match goal with
       | H : filter _ _ = _ :: _ |- _ => rewrite (Hf _ eq_refl) in H; discriminate H
       end.
  all: repeat split; try reflexivity.
  all: do 2 eexists;
       (split; [unfold error_report, private_notice, decision_verb; log_eq|]).
  all: intros; congruence.
Qed.

Lemma decision_on_unknown_id_witness :
  let env := scenario_env None [] slack_up in
  let w := submitted env in
  let w' := exec env (decision_event Deny R2) w in
  (forall r, In r (tbl w) -> parseInt env (body_action_value R2) <> Num (id r)) /\
  tbl w' = tbl w /\ messages_id_seq w' = messages_id_seq w /\
  exists r,
    effects w' = (effects w ++ Ack :: error_report env Deny R2 "Message not found" r)%list.
Proof.
  intros env w w'.
  assert (Hno : forall r, In r (tbl w) ->
                          parseInt env (body_action_value R2) <> Num (id r)).
  { vm_compute. intros r [<- | []]. discriminate. }
  destruct (decision_on_unknown_id env Deny R2 w Hno) as [Ht [Hs [msg [r [He Hmsg]]]]].
  split; [exact Hno|]. split; [exact Ht|]. split; [exact Hs|].
  exists r. rewrite <- (Hmsg eq_refl); [exact He|]. vm_compute. discriminate.
Defined.

(** C8: denying never posts a message, into the submission's thread or
    anywhere else: whatever the store and the platform answer, nothing the
    deny handler emits is a [chat.postMessage].  For every submission X that
    exists, when the lookup and the update are served, the handler writes
    status denied and [reviewed_at] in one update and, besides the
    acknowledgement, calls the platform to edit the review card, which then
    shows X's text struck through and the identity of the deciding reviewer;
    only if that edit fails is the failure logged and reported privately to
    the reviewer. *)
Theorem deny_never_relays env b w :
  let w' := exec env (on_deny_impression b) w in
  (exists new,
     effects w' = (effects w ++ new)%list /\ existsb is_postMessage new = false) /\
  (forall n X,
     parseInt env (body_action_value b) = Num n ->
     find_row n (tbl w) = Some X ->
     pg_int4 (Num n) = Some n ->
     pg_fault env (stmts w) = None ->
     pg_fault env (S (stmts w)) = None ->
     tbl w' = update_where n (set_status "denied" (NOW env (S (stmts w)))) (tbl w) /\
     messages_id_seq w' = messages_id_seq w /\
     exists r r',
       effects w' =
         (effects w ++
          Ack ::
          Slack (chat_update (SLACK_BOT_TOKEN env) (body_channel_id b) (body_message_ts b)
                   ("❌ Denied by <@" ++ body_user_id b ++ ">")
                   [ section_mrkdwn ("~" ++ message X ++ "~" ++ nl ++ nl
                                     ++ "❌ *Denied* by <@" ++ body_user_id b ++ ">") ]) r ::
          match r with
          | ok _ => []
          | failed msg => error_report env Deny b msg r'
          end)%list).
Proof.
  intros w'. subst w'. split.
  - destruct (decision_cases env Deny b w) as [_ [H|H]]; cbn [decision_event] in H.
    + destruct H as [msg [r [_ [-> _]]]]. eexists; split; reflexivity.
    + destruct H as [n [X [r1 [r2 [r3 [_ [_ [_ ->]]]]]]]].
      eexists; split; [reflexivity|].
      cbn [existsb is_postMessage orb decision_trace]. apply card_trace_no_post.
  - intros n X Hp Hx Hi Hq1 Hq2.
    destruct (decision_commits env Deny b w n X Hp Hx Hi Hq1 Hq2)
      as [Ht [r1 [r2 [r3 He]]]]; cbn [decision_event decision_status] in Ht, He.
    destruct (decision_cases env Deny b w) as [Hseq _]; cbn [decision_event] in Hseq.
    split; [exact Ht|]. split; [exact Hseq|].
    exists r2, r3. exact He.
Qed.

Lemma deny_never_relays_witness :
  let env := scenario_env None [] slack_up in
  let w := submitted env in
  let w' := exec env (on_deny_impression R1) w in
  exists X,
    find_row 1 (tbl w) = Some X /\ message X = "nice job" /\
    map status (tbl w') = ["denied"] /\
    exists r r',
      effects w' =
        (effects w ++
         Ack :: Slack (denied_card env R1 X) r ::
         match r with
         | ok _ => []
         | failed msg => error_report env Deny R1 msg r'
         end)%list.
Proof.
  intros env w w'.
  pose (X := mkRow 1 "f89412c11bdc0ab44f99f92d5e9a3c5e" "nice job" "pending"
               1000 None (Some "1700000001.000200")
               (Some "1700000000.000100") (Some "C02A6BRM2JD")).
  assert (HX : find_row 1 (tbl w) = Some X) by (vm_compute; reflexivity).
  destruct (deny_never_relays env R1 w) as [_ H].
  destruct (H 1 X eq_refl HX eq_refl eq_refl eq_refl) as [Ht [_ He]].
  exists X. split; [exact HX|]. split; [reflexivity|]. split.
  - unfold w'. rewrite Ht. vm_compute. reflexivity.
  - exact He.
Defined.

(** C9: the admin delete shortcut never touches the store, and it calls
    [chat.delete] if and only if the acting user is one of the five
    hard-coded identities.  For such a user the call deletes the message the
    shortcut was invoked on, in its channel, and a private "doned" follows
    when the deletion went through; for any other user the handler's only
    call is the private refusal notice. *)
Theorem delete_me_only_for_admins env b w :
  let w' := exec env (on_delete_me b) w in
  tbl w' = tbl w /\
  exists new,
    effects w' = (effects w ++ new)%list /\
    (In (body_user_id b)
        ["UJYDFQ2QL"; "UHFEGV147"; "U01D6FYHLUW"; "UM4BAKT6U"; "U0128N09Q8Y"]
     <-> existsb is_delete new = true) /\
    (In (body_user_id b) admins ->
     exists r,
       firstn 2 new = [Ack; Slack (chat_delete (SLACK_BOT_TOKEN env)
                                     (body_message_ts b) (body_channel_id b)) r] /\
       forall ts, r = ok ts ->
         exists r', new = [Ack;
                           Slack (chat_delete (SLACK_BOT_TOKEN env)
                                    (body_message_ts b) (body_channel_id b)) r;
                           Slack (private_notice env b "doned") r']) /\
    (~ In (body_user_id b) admins ->
     exists r, new = [Ack; Slack (private_notice env b "grrr stop bullying") r]).
Proof.
  change ["UJYDFQ2QL"; "UHFEGV147"; "U01D6FYHLUW"; "UM4BAKT6U"; "U0128N09Q8Y"]
    with admins.
  run_handler.
  destruct (includes admins (body_user_id b)) eqn:Hadm.
  - assert (Hin : In (body_user_id b) admins) by now apply includes_In.
    repeat case_env; (split; [reflexivity|]); eexists; (split; [log_eq|]).
    all: split; [split; [reflexivity | intros _; exact Hin]|].
    all: split; [| intros Hn; contradiction].
    all: intros _; eexists; split; [reflexivity|]; intros ts' E; try discriminate E.
    all: eexists; reflexivity.
  - assert (Hin : ~ In (body_user_id b) admins) by now apply includes_not_In.
    repeat case_env; (split; [reflexivity|]); eexists; (split; [log_eq|]).
    all: split; [split; [intros Hy; contradiction | intros E; discriminate E]|].
    all: split; [intros Hy; contradiction|].
    all: intros _; eexists; reflexivity.
Qed.

Lemma delete_me_only_for_admins_witness :
  let env := scenario_env None [] slack_up in
  let admin := mkBody "UHFEGV147" "C02A6BRM2JD" "1700000000.000100" "" "" "" in
  In "UHFEGV147" admins /\ ~ In "U1" admins /\
  (exists new,
     effects (exec env (on_delete_me admin) init_world) = new /\
     existsb is_delete new = true) /\
  (exists r,
     effects (exec env (on_delete_me U1) init_world)
     = [Ack; Slack (private_notice env U1 "grrr stop bullying") r]).
Proof.
  intros env admin.
  assert (Hin : In "UHFEGV147" admins) by (right; left; reflexivity).
  assert (Hout : ~ In "U1" admins)
    by (intros [H | [H | [H | [H | [H | []]]]]]; discriminate H).
  split; [exact Hin|]. split; [exact Hout|]. split.
  - destruct (delete_me_only_for_admins env admin init_world)
      as [_ [new [Hlog [Hiff _]]]].
    exists new. split; [exact Hlog | apply Hiff; exact Hin].
  - destruct (delete_me_only_for_admins env U1 init_world)
      as [_ [new [Hlog [_ [_ Hother]]]]].
    destruct (Hother Hout) as [r Hr]. exists r. rewrite Hlog, Hr. reflexivity.
Defined.

(** C10: the stored fingerprint is a function of the submitter's user id
    alone: for any two form submissions by the same user id, under any
    environments, states of the store, texts, threads and channels, the rows
    they insert carry the same [user_hash], namely the MD5 digest of the
    user id in hexadecimal, which is always 32 characters long. *)
Theorem user_hash_of_user_only env1 env2 b1 b2 v1 v2 w1 w2 r1 r2 :
  body_user_id b1 = body_user_id b2 ->
  new_row (tbl w1) (tbl (exec env1 (on_impression_id b1 v1) w1)) r1 ->
  new_row (tbl w2) (tbl (exec env2 (on_impression_id b2 v2) w2)) r2 ->
  user_hash r1 = Md5.md5_hex (body_user_id b1) /\
  user_hash r2 = user_hash r1 /\
  String.length (user_hash r1) = 32%nat.
Proof.
  intros Hu H1 H2.
  destruct (impression_id_new_row _ _ _ _ _ H1) as [E1 _].
  destruct (impression_id_new_row _ _ _ _ _ H2) as [E2 _].
  rewrite E1, E2, Hu.
  split; [reflexivity | split; [reflexivity | apply md5_hex_length]].
Qed.

Lemma user_hash_of_user_only_witness :
  let env := scenario_env None [] slack_up in
  let w1 := init_world in
  let w2 := submitted env in
  let v2 := mkView "on second thought" "1700000000.000300|G01PPVD14Q0" in
  exists r1 r2,
    nth_error (tbl (exec env (on_impression_id U1 nice_job) w1)) 0 = Some r1 /\
    nth_error (tbl (exec env (on_impression_id U1_elsewhere v2) w2)) 1 = Some r2 /\
    message r1 <> message r2 /\ channel_id r1 <> channel_id r2 /\
    user_hash r1 = "f89412c11bdc0ab44f99f92d5e9a3c5e" /\
    user_hash r2 = user_hash r1 /\
    String.length (user_hash r1) = 32%nat.
Proof.
  intros env w1 w2 v2.
  pose (X1 := mkRow 1 "f89412c11bdc0ab44f99f92d5e9a3c5e" "nice job" "pending"
                1000 None (Some "1700000001.000200")
                (Some "1700000000.000100") (Some "C02A6BRM2JD")).
  pose (X2 := mkRow 2 "f89412c11bdc0ab44f99f92d5e9a3c5e" "on second thought" "pending"
                1002 None (Some "1700000001.000200")
                (Some "1700000000.000300") (Some "G01PPVD14Q0")).
  assert (H1 : nth_error (tbl (exec env (on_impression_id U1 nice_job) w1)) 0 = Some X1)
    by (vm_compute; reflexivity).
  assert (H2 : nth_error (tbl (exec env (on_impression_id U1_elsewhere v2) w2)) 1 = Some X2)
    by (vm_compute; reflexivity).
  assert (N1 : new_row (tbl w1) (tbl (exec env (on_impression_id U1 nice_job) w1)) X1)
    by (exists 0%nat; split; [vm_compute; lia | exact H1]).
  assert (N2 : new_row (tbl w2) (tbl (exec env (on_impression_id U1_elsewhere v2) w2)) X2)
    by (exists 1%nat; split; [vm_compute; lia | exact H2]).
  destruct (user_hash_of_user_only env env U1 U1_elsewhere nice_job v2 w1 w2 X1 X2
              eq_refl N1 N2)
    as [E1 [E2 E3]].
  exists X1, X2. split; [exact H1|]. split; [exact H2|].
  split; [discriminate|]. split; [discriminate|].
  split; [reflexivity|]. split; [exact E2 | exact E3].
Defined.

(** * Further properties *)

(** ** Start-up *)

Lemma strict_eq_true v s : strict_eq v s = true <-> v = Some s.
Proof.
  destruct v as [x|]; simpl; [|split; discriminate].
  rewrite String.eqb_eq. split; congruence.
Qed.

Lemma truthy_Some v : truthy v = true <-> exists s, v = Some s /\ s <> "".
Proof.
  destruct v as [x|]; simpl.
  - rewrite negb_true_iff, String.eqb_neq. split.
    + intros H. now exists x.
    + intros [s [[= ->] H]]. exact H.
  - split; [discriminate | intros [s [H _]]; discriminate H].
Qed.

(** Socket mode is on without the token only when it was asked for. *)
Lemma useSocketMode_without_token penv :
  truthy (penv "SLACK_APP_TOKEN") = false ->
  useSocketMode penv = strict_eq (penv "SOCKET_MODE") "true".
Proof.
  intros H. unfold useSocketMode. rewrite H, andb_false_r, orb_false_r. reflexivity.
Qed.

Lemma In_missingVars_app_token penv :
  In "SLACK_APP_TOKEN" (missingVars penv) <->
  penv "SOCKET_MODE" = Some "true" /\ truthy (penv "SLACK_APP_TOKEN") = false.
Proof.
  unfold missingVars, requiredEnvVars. rewrite filter_In, in_app_iff, negb_true_iff.
  split.
  - intros [[H | H] Ht].
    + destruct H as [H | [H | [H | [H | []]]]]; discriminate H.
    + rewrite (useSocketMode_without_token penv Ht) in H.
      destruct (strict_eq (penv "SOCKET_MODE") "true") eqn:E; [|destruct H].
      split; [now apply strict_eq_true | exact Ht].
  - intros [Hs Ht]. split; [|exact Ht]. right.
    rewrite (useSocketMode_without_token penv Ht).
    apply strict_eq_true in Hs. rewrite Hs. now left.
Qed.

Lemma missingVars_nil penv :
  missingVars penv = [] <->
  (truthy (penv "SLACK_SIGNING_SECRET") = true /\
   truthy (penv "SLACK_BOT_TOKEN") = true /\
   truthy (penv "POSTGRES_URL") = true /\
   truthy (penv "REVIEW_CHANNEL_ID") = true /\
   (penv "SOCKET_MODE" = Some "true" -> truthy (penv "SLACK_APP_TOKEN") = true)).
Proof.
  split.
  - intros Hnil.
    assert (Hall : forall v, In v (requiredEnvVars penv) -> truthy (penv v) = true).
    { intros v Hv. destruct (truthy (penv v)) eqn:E; [reflexivity|].
      assert (Hin : In v (missingVars penv))
        by (apply filter_In; split; [exact Hv | now rewrite E]).
      rewrite Hnil in Hin. destruct Hin. }
    repeat split.
    1-4: apply Hall; unfold requiredEnvVars; apply in_or_app; left; simpl; tauto.
    intros Hs. destruct (truthy (penv "SLACK_APP_TOKEN")) eqn:E; [reflexivity|].
    assert (Hin : In "SLACK_APP_TOKEN" (missingVars penv))
      by (apply In_missingVars_app_token; split; assumption).
    rewrite Hnil in Hin. destruct Hin.
  - intros [H1 [H2 [H3 [H4 H5]]]].
    destruct (missingVars penv) as [|v l] eqn:E; [reflexivity|]. exfalso.
    assert (Hin : In v (missingVars penv)) by (rewrite E; now left).
    assert (Hin' := Hin).
    unfold missingVars in Hin. apply filter_In in Hin. destruct Hin as [Hreq Hf].
    apply negb_true_iff in Hf.
    unfold requiredEnvVars in Hreq. apply in_app_or in Hreq. destruct Hreq as [Hreq | Hreq].
    + destruct Hreq as [<- | [<- | [<- | [<- | []]]]]; congruence.
    + destruct (useSocketMode penv); [|destruct Hreq].
      destruct Hreq as [<- | []].
      apply In_missingVars_app_token in Hin'. destruct Hin' as [Hs Ht].
      rewrite (H5 Hs) in Ht. discriminate Ht.
Qed.

Lemma check_env_Continue penv :
  fst (check_env penv) = Continue <-> missingVars penv = [].
Proof.
  unfold check_env. destruct (missingVars penv); simpl; split; congruence.
Qed.

(** X2: SLACK_APP_TOKEN is reported missing exactly when SOCKET_MODE is
    the string true and the token is unset or empty; when SOCKET_MODE is
    anything else and the token is unset or empty, socket mode is off and the
    token is not among the required variables at all. *)
Theorem app_token_reported_missing_iff penv :
  (In "SLACK_APP_TOKEN" (missingVars penv) <->
   penv "SOCKET_MODE" = Some "true" /\ truthy (penv "SLACK_APP_TOKEN") = false) /\
  (penv "SOCKET_MODE" <> Some "true" -> truthy (penv "SLACK_APP_TOKEN") = false ->
   useSocketMode penv = false /\ ~ In "SLACK_APP_TOKEN" (requiredEnvVars penv)).
Proof.
  split; [apply In_missingVars_app_token|].
  intros Hs Ht. rewrite (useSocketMode_without_token penv Ht).
  assert (E : strict_eq (penv "SOCKET_MODE") "true" = false).
  { destruct (strict_eq (penv "SOCKET_MODE") "true") eqn:E; [|reflexivity].
    apply strict_eq_true in E. contradiction. }
  split; [exact E|].
  unfold requiredEnvVars. rewrite (useSocketMode_without_token penv Ht), E.
  intros [H | [H | [H | [H | []]]]]; discriminate H.
Qed.

(** X1: the environment validation lets the process go on exactly when
    SLACK_SIGNING_SECRET, SLACK_BOT_TOKEN, POSTGRES_URL and REVIEW_CHANNEL_ID
    are set and not empty and, when SOCKET_MODE is the string true, so is
    SLACK_APP_TOKEN; otherwise it exits with code 1 after printing one line
    that lists the missing names joined by a comma and a space. *)
Theorem check_env_continues_iff penv :
  (fst (check_env penv) = Continue <->
   (truthy (penv "SLACK_SIGNING_SECRET") = true /\
    truthy (penv "SLACK_BOT_TOKEN") = true /\
    truthy (penv "POSTGRES_URL") = true /\
    truthy (penv "REVIEW_CHANNEL_ID") = true /\
    (penv "SOCKET_MODE" = Some "true" -> truthy (penv "SLACK_APP_TOKEN") = true))) /\
  (fst (check_env penv) = Continue \/
   check_env penv =
     (ProcessExit 1,
      [ "⤫ Missing required environment variables: " ++ join ", " (missingVars penv) ])).
Proof.
  rewrite <- missingVars_nil. unfold check_env.
  destruct (missingVars penv) as [|v l]; simpl.
  - split; [tauto | now left].
  - split; [split; discriminate | now right].
Qed.

(** X3: when the environment validation passed, the configuration handed
    to the App has a non-empty token and signing secret; in socket mode it
    has a non-empty appToken, and outside socket mode it has none. *)
Theorem socket_mode_has_app_token penv :
  fst (check_env penv) = Continue ->
  (exists tok, cfg_token (appConfig penv) = Some tok /\ tok <> "") /\
  (exists sec, cfg_signingSecret (appConfig penv) = Some sec /\ sec <> "") /\
  (cfg_socketMode (appConfig penv) = true ->
   exists t, cfg_appToken (appConfig penv) = Some t /\ t <> "") /\
  (cfg_socketMode (appConfig penv) = false -> cfg_appToken (appConfig penv) = None).
Proof.
  intros H. apply check_env_Continue, missingVars_nil in H.
  destruct H as [Hsec [Htok [_ [_ Hsock]]]].
  unfold appConfig. destruct (useSocketMode penv) eqn:E; simpl.
  - split; [now apply truthy_Some|]. split; [now apply truthy_Some|].
    split; [|discriminate]. intros _. apply truthy_Some.
    destruct (truthy (penv "SLACK_APP_TOKEN")) eqn:Et; [reflexivity|].
    rewrite (useSocketMode_without_token penv Et) in E.
    apply strict_eq_true in E. specialize (Hsock E). congruence.
  - split; [now apply truthy_Some|]. split; [now apply truthy_Some|].
    split; [discriminate | reflexivity].
Qed.

Lemma socket_mode_has_app_token_witness :
  fst (check_env socket_penv) = Continue /\
  cfg_socketMode (appConfig socket_penv) = true /\
  exists t, cfg_appToken (appConfig socket_penv) = Some t /\ t <> "".
Proof.
  split; [reflexivity|]. split; [reflexivity|].
  destruct (socket_mode_has_app_token socket_penv eq_refl) as [_ [_ [H _]]].
  exact (H eq_refl).
Defined.

(** ** [initDatabase] *)

Lemma includes_add_index l x y :
  includes (add_index y l) x = includes l x || String.eqb x y.
Proof.
  unfold add_index. destruct (includes l y) eqn:E.
  - destruct (String.eqb_spec x y) as [->|_]; [now rewrite E | now rewrite orb_false_r].
  - unfold includes. rewrite existsb_app. simpl. now rewrite orb_false_r.
Qed.

Lemma add_index_In l x y : In x (add_index y l) <-> In x l \/ x = y.
Proof.
  rewrite <- !includes_In, includes_add_index, orb_true_iff, String.eqb_eq. tauto.
Qed.

Lemma add_index_present l y : includes l y = true -> add_index y l = l.
Proof. unfold add_index. now intros ->. Qed.

Ltac run_boot :=
  cbv beta iota zeta delta
    [initDatabase initDatabase_try createIndexes boot_query to_regclass
     create_table create_index world_of];
  cbn [catalog queries console messages_table index_names fst snd].

(** Run [initDatabase] with the answers of the database in the context. *)
Ltac boot_reduce :=
  run_boot;
  do 4 (repeat match goal with
               | H : ?x = Some _ |- context [match ?x with _ => _ end] => rewrite H
               | H : ?x = None |- context [match ?x with _ => _ end] => rewrite H
               end;
        run_boot).

(** The run in which no query fails. *)
Lemma initDatabase_served fault b :
  (forall k, (queries b <= k < queries b + 4)%nat -> fault k = None) ->
  initDatabase fault b =
  (Continue,
   match messages_table (catalog b) with
   | Some t =>
       mkBoot (mkCatalog (Some t)
                 (add_index "idx_status" (add_index "idx_user_hash"
                                            (index_names (catalog b)))))
              (queries b + 3) (console b)
   | None =>
       mkBoot (mkCatalog (Some ([], 1))
                 (add_index "idx_status" (add_index "idx_user_hash"
                                            (index_names (catalog b)))))
              (queries b + 4)
              (console b ++
               [ConsoleLog "✓ Initial PSQL Database initialized successfully"])%list
   end).
Proof.
  intros Hok.
  assert (H0 : fault (queries b) = None) by (apply Hok; lia).
  assert (H1 : fault (S (queries b)) = None) by (apply Hok; lia).
  assert (H2 : fault (S (S (queries b))) = None) by (apply Hok; lia).
  assert (H3 : fault (S (S (S (queries b)))) = None) by (apply Hok; lia).
  destruct b as [[tb ix] q cs]. cbn [queries] in H0, H1, H2, H3. clear Hok.
  destruct tb as [t|]; boot_reduce; repeat f_equal; lia.
Qed.

(** X4: when none of its (at most four) queries fails, initDatabase
    lets the process go on; the table messages then exists, with the rows and
    sequence it had, or empty with its sequence at 1 when it did not exist;
    both indexes exist and no index was dropped; started on a database
    without the table it leaves the world the handlers start in. *)
Theorem initDatabase_creates_schema fault b :
  (forall k, (queries b <= k < queries b + 4)%nat -> fault k = None) ->
  let b' := snd (initDatabase fault b) in
  fst (initDatabase fault b) = Continue /\
  messages_table (catalog b')
  = Some (match messages_table (catalog b) with
          | Some t => t
          | None => ([], 1)
          end) /\
  In "idx_user_hash" (index_names (catalog b')) /\
  In "idx_status" (index_names (catalog b')) /\
  (forall i, In i (index_names (catalog b)) -> In i (index_names (catalog b'))) /\
  (messages_table (catalog b) = None -> world_of (catalog b') = Some init_world).
Proof.
  intros Hok. rewrite (initDatabase_served fault b Hok).
  destruct (messages_table (catalog b)) as [t|]; cbn [fst snd catalog messages_table index_names].
  all: repeat split; try discriminate; try reflexivity.
  all: intros; rewrite !add_index_In; tauto.
Qed.

Lemma initDatabase_creates_schema_witness :
  let b' := snd (initDatabase no_fault empty_boot) in
  fst (initDatabase no_fault empty_boot) = Continue /\
  messages_table (catalog b') = Some ([], 1) /\
  index_names (catalog b') = ["idx_user_hash"; "idx_status"] /\
  world_of (catalog b') = Some init_world.
Proof.
  destruct (initDatabase_creates_schema no_fault empty_boot (fun _ _ => eq_refl))
    as [Hc [Ht [_ [_ [_ Hw]]]]].
  split; [exact Hc|]. split; [exact Ht|]. split; [reflexivity|]. exact (Hw eq_refl).
Defined.

(** X5: running initDatabase a second time changes nothing: on the
    catalog the first run left, the second run succeeds with three queries,
    leaves the catalog as it is and prints nothing (the success line is only
    printed by the run that created the table). *)
Theorem initDatabase_idempotent fault1 fault2 b :
  (forall k, fault1 k = None) ->
  (forall k, fault2 k = None) ->
  let b1 := snd (initDatabase fault1 b) in
  let b2 := snd (initDatabase fault2 b1) in
  fst (initDatabase fault2 b1) = Continue /\
  catalog b2 = catalog b1 /\
  console b2 = console b1 /\
  queries b2 = (queries b1 + 3)%nat.
Proof.
  intros H1 H2. cbv zeta.
  rewrite (initDatabase_served fault1 b) by (intros; apply H1).
  set (b1 := snd _).
  rewrite (initDatabase_served fault2 b1) by (intros; apply H2).
  assert (Hu : includes (index_names (catalog b1)) "idx_user_hash" = true).
  { unfold b1. destruct (messages_table (catalog b)); cbn [snd catalog index_names];
      rewrite !includes_add_index, String.eqb_refl, orb_true_r; reflexivity. }
  assert (Hs : includes (index_names (catalog b1)) "idx_status" = true).
  { unfold b1. destruct (messages_table (catalog b)); cbn [snd catalog index_names];
      rewrite !includes_add_index, String.eqb_refl; apply orb_true_r. }
  assert (Ht : exists t, messages_table (catalog b1) = Some t /\ catalog b1
                 = mkCatalog (Some t) (index_names (catalog b1))).
  { unfold b1. destruct (messages_table (catalog b)); cbn [snd catalog index_names
      messages_table]; eauto. }
  destruct Ht as [t [Ht Hc]]. rewrite Ht. cbn [fst snd catalog console queries].
  rewrite (add_index_present _ _ Hu), (add_index_present _ _ Hs).
  repeat split. now rewrite Hc at 2.
Qed.

Lemma initDatabase_idempotent_witness :
  let b1 := snd (initDatabase no_fault empty_boot) in
  let b2 := snd (initDatabase no_fault b1) in
  queries b1 = 4%nat /\
  fst (initDatabase no_fault b1) = Continue /\
  catalog b2 = catalog b1 /\ console b2 = console b1 /\ queries b2 = 7%nat.
Proof.
  destruct (initDatabase_idempotent no_fault no_fault empty_boot
              (fun _ => eq_refl) (fun _ => eq_refl))
    as [Hc [Hcat [Hcon Hq]]].
  split; [reflexivity|]. split; [exact Hc|]. split; [exact Hcat|].
  split; [exact Hcon|]. rewrite Hq. reflexivity.
Defined.

Ltac exit_facts q :=
  (split; [split|]);
  [ try discriminate; intros _
  | intros [? [? ?]]; try reflexivity
  | split; [auto|]; split; [try discriminate; intros _; eexists; reflexivity|];
    intros ? [= <-]; reflexivity || discriminate ];
  try (exists q; split; [lia | congruence]);
  try (exists (S q); split; [lia | congruence]);
  try (exists (S (S q)); split; [lia | congruence]);
  try (exists (S (S (S q))); split; [lia | congruence]);
  try (exfalso;
       match goal with
       | Hk : (_ <= ?k < _)%nat |- _ =>
           assert (Hc : k = q \/ k = S q \/ k = S (S q) \/ k = S (S (S q))) by lia;
           destruct Hc as [-> | [-> | [-> | ->]]]; try congruence; lia
       end).

(** X6: initDatabase exits with code 1 exactly when one of the queries
    it sends fails (three when the table exists, four otherwise), and with no
    other code; it then printed the error as the last line of the console;
    and whether it succeeds or not, a table that existed is left as it was. *)
Theorem initDatabase_exits_iff_fault fault b :
  let r := fst (initDatabase fault b) in
  let b' := snd (initDatabase fault b) in
  (r = ProcessExit 1 <->
   exists k, (queries b <= k < queries b + init_queries (catalog b))%nat /\ fault k <> None) /\
  (r = Continue \/ r = ProcessExit 1) /\
  (r = ProcessExit 1 ->
   exists e, console b'
             = (console b ++ [ConsoleErr "⤫ Initial PSQL Database initialization error:" e])%list) /\
  (forall t, messages_table (catalog b) = Some t -> messages_table (catalog b') = Some t).
Proof.
  destruct b as [[tb ix] q cs]. unfold init_queries.
  cbn [catalog queries console messages_table].
  destruct (fault q) eqn:H0.
  { destruct tb as [t|]; boot_reduce; exit_facts q. }
  destruct (fault (S q)) eqn:H1.
  { destruct tb as [t|]; boot_reduce; exit_facts q. }
  destruct (fault (S (S q))) eqn:H2.
  { destruct tb as [t|]; boot_reduce; exit_facts q. }
  destruct tb as [t|]; try (boot_reduce; exit_facts q).
  destruct (fault (S (S (S q)))) eqn:H3; boot_reduce; exit_facts q.
Qed.

(** ** Every handler *)

(** X9: every handler acknowledges the event first, before any call or
    console line, and acknowledges once. *)
Theorem every_handler_acks_first env e w :
  exists rest,
    effects (exec env e w) = (effects w ++ Ack :: rest)%list /\
    existsb is_ack rest = false.
Proof.
  destruct e; run_handler; repeat case_env;
    eexists; (split; [log_eq | reflexivity]).
Qed.

(** X10: the submission handler lets no error escape: whatever the store
    and the platform answer, it returns normally. *)
Theorem impression_id_never_throws env b v w :
  fst (handle (on_impression_id b v) env w) = Return tt.
Proof.
  run_handler. repeat case_env; reflexivity.
Qed.

(** X11: when a handler lets an error escape, the error is the
    platform's refusal of the last call the handler made, and that call is
    the private error notice of a decision handler, a call of the delete
    shortcut (the delete or a notice), or a call of the reply shortcut (the
    opening of the form or a notice). *)
Theorem escaping_error_is_rejected_last_call env e w m :
  fst (handle e env w) = Throw m ->
  exists c,
    last (effects (exec env e w)) Ack = Slack c (failed m) /\
    match e with
    | on_accept_impression b =>
        exists msg, c = private_notice env b ("Error accepting impression: " ++ msg)
    | on_deny_impression b =>
        exists msg, c = private_notice env b ("Error denying impression: " ++ msg)
    | on_delete_me b =>
        c = chat_delete (SLACK_BOT_TOKEN env) (body_message_ts b) (body_channel_id b) \/
        exists text, c = private_notice env b text
    | on_reply_impression b =>
        c = views_open (body_trigger_id b) (impression_modal b) \/
        exists text, c = private_notice env b text
    | on_impression_id _ _ => False
    end.
Proof.
  destruct e; run_handler; repeat case_env; intros H;
    try discriminate H; injection H as <-;
    eexists; rewrite last_last; (split; [reflexivity|]);
    unfold private_notice; eauto.
Qed.

Lemma escaping_error_is_rejected_last_call_witness :
  let env := scenario_env None [] slack_down in
  fst (handle (on_delete_me U2) env init_world) = Throw "not_authed" /\
  exists c,
    last (effects (exec env (on_delete_me U2) init_world)) Ack
    = Slack c (failed "not_authed") /\
    (c = chat_delete (SLACK_BOT_TOKEN env) (body_message_ts U2) (body_channel_id U2) \/
     exists text, c = private_notice env U2 text).
Proof.
  intros env.
  assert (H : fst (handle (on_delete_me U2) env init_world) = Throw "not_authed")
    by (vm_compute; reflexivity).
  split; [exact H|].
  exact (escaping_error_is_rejected_last_call env (on_delete_me U2) init_world
           "not_authed" H).
Defined.

(** ** The store across handlers *)

Lemma shortcut_store env b w :
  messages_id_seq (exec env (on_delete_me b) w) = messages_id_seq w /\
  stmts (exec env (on_delete_me b) w) = stmts w /\
  messages_id_seq (exec env (on_reply_impression b) w) = messages_id_seq w /\
  stmts (exec env (on_reply_impression b) w) = stmts w.
Proof. repeat split; run_handler; repeat case_env; reflexivity. Qed.

Lemma decision_stmts env d b w :
  (stmts w < stmts (exec env (decision_event d b) w) <= stmts w + 2)%nat.
Proof. destruct d; run_handler; repeat case_env; lia. Qed.

(** What a submission does to the table and the sequence. *)
Lemma impression_id_store env b v w :
  let w' := exec env (on_impression_id b v) w in
  let parts := split "|"%char (view_private_metadata v) in
  (stmts w < stmts w' <= stmts w + 2)%nat /\
  ((tbl w' = tbl w /\
    (messages_id_seq w' = messages_id_seq w \/ messages_id_seq w' = messages_id_seq w + 1))
   \/
   (messages_id_seq w' = messages_id_seq w + 1 /\
    exists th ch,
      let row := mkRow (messages_id_seq w) (Md5.md5_hex (body_user_id b))
                       (view_dreamy_input_value v) "pending" (NOW env (stmts w))
                       None None (Some th) ch in
      varchar 50 (hd EmptyString parts) = Some th /\
      varchar_opt 50 (nth_error parts 1) = Some ch /\
      (tbl w' = (tbl w ++ [row])%list \/
       exists ts,
         tbl w' = update_where (messages_id_seq w) (set_review_message_ts ts)
                               (tbl w ++ [row])%list))).
Proof.
  run_handler. rewrite varchar_md5_hex. repeat case_env.
  all: try match goal with
       | H : pg_int4 (Num _) = Some _ |- _ => apply pg_int4_Num in H; subst
       end.
  all: (split; [lia|]).
  all: first [ left; split; [reflexivity|]; (left; reflexivity) || (right; reflexivity)
             | right; split; [reflexivity|]; do 2 eexists;
               split; [reflexivity|]; split; [reflexivity|];
               first [ left; reflexivity | right; eexists; reflexivity ] ].
Qed.

Lemma update_where_ids z f t :
  (forall r, id (f r) = id r) -> map id (update_where z f t) = map id t.
Proof.
  intros Hf. unfold update_where. rewrite map_map. apply map_ext.
  intros r. destruct (id r =? z); [apply Hf | reflexivity].
Qed.

(** An update on an id no row has changes nothing. *)
Lemma update_where_absent z f t :
  (forall r, In r t -> id r <> z) -> update_where z f t = t.
Proof.
  intros H. unfold update_where. rewrite <- (map_id t) at 2. apply map_ext_in.
  intros r Hr. destruct (Z.eqb_spec (id r) z) as [E|_]; [|reflexivity].
  elim (H r Hr E).
Qed.

Lemma update_where_snoc z f t r :
  (forall x, In x t -> id x <> z) -> id r = z ->
  update_where z f (t ++ [r])%list = (t ++ [f r])%list.
Proof.
  intros H E. unfold update_where at 1. rewrite map_app.
  fold (update_where z f t). rewrite (update_where_absent z f t H).
  simpl. rewrite E, Z.eqb_refl. reflexivity.
Qed.

Lemma init_world_fresh_ids : fresh_ids init_world.
Proof. split; [intros r [] | constructor]. Qed.

Lemma fresh_ids_lt w r : fresh_ids w -> In r (tbl w) -> id r <> messages_id_seq w.
Proof. intros [H _] Hr. specialize (H r Hr). lia. Qed.

Lemma exec_keeps_fresh_ids env e w : fresh_ids w -> fresh_ids (exec env e w).
Proof.
  intros Hw. assert (Hw' := Hw). destruct Hw' as [Hlt Hnd].
  assert (Hsame : forall w', tbl w' = tbl w ->
            (messages_id_seq w' = messages_id_seq w \/
             messages_id_seq w' = messages_id_seq w + 1) -> fresh_ids w').
  { intros w' Ht Hs. split; rewrite Ht; [|exact Hnd].
    intros r Hr. specialize (Hlt r Hr). lia. }
  assert (Hdec : forall d b, fresh_ids (exec env (decision_event d b) w)).
  { intros d b. destruct (decision_cases env d b w) as [Hseq [H|H]].
    - destruct H as [msg [r [Ht _]]]. apply Hsame; auto.
    - destruct H as [n [X [r1 [r2 [r3 [_ [_ [Ht _]]]]]]]].
      split.
      + rewrite Ht, Hseq. intros r Hr. unfold update_where in Hr.
        apply in_map_iff in Hr. destruct Hr as [r0 [<- Hr0]].
        specialize (Hlt r0 Hr0). destruct (id r0 =? n); simpl; lia.
      + rewrite Ht, update_where_ids by reflexivity. exact Hnd. }
  destruct e as [b|b|b|b|b v].
  - exact (Hdec Accept b).
  - exact (Hdec Deny b).
  - destruct (shortcut_store env b w) as [Hs _].
    apply Hsame; [apply delete_me_tbl | now left].
  - destruct (shortcut_store env b w) as [_ [_ [Hs _]]].
    apply Hsame; [apply reply_impression_tbl | now left].
  - destruct (impression_id_store env b v w) as [_ [[Ht Hs] | [Hs [th [ch [_ [_ Ht]]]]]]].
    + apply Hsame; auto.
    + assert (Hids : map id (tbl (exec env (on_impression_id b v) w))
                     = (map id (tbl w) ++ [messages_id_seq w])%list).
      { destruct Ht as [-> | [ts ->]].
        - now rewrite map_app.
        - rewrite update_where_ids by reflexivity. now rewrite map_app. }
      split.
      * intros r Hr. apply (in_map id) in Hr. rewrite Hids in Hr.
        rewrite Hs. apply in_app_or in Hr. destruct Hr as [Hr | [<- | []]]; [|lia].
        apply in_map_iff in Hr. destruct Hr as [r0 [<- Hr0]].
        specialize (Hlt r0 Hr0). lia.
      * rewrite Hids. apply NoDup_app; [exact Hnd | repeat constructor; intros [] |].
        intros x Hx [<- | []]. apply in_map_iff in Hx. destruct Hx as [r0 [E Hr0]].
        specialize (Hlt r0 Hr0). lia.
Qed.

(** X12: in every state the handlers reach from the empty table (and from
    any table that has the property) the ids of the rows are distinct and
    below the next value of the sequence; so a decision rewrites at most one
    row. *)
Theorem ids_stay_fresh env es :
  fresh_ids (run env es init_world) /\
  (forall w, fresh_ids w -> fresh_ids (run env es w)) /\
  (forall w d b,
     fresh_ids w ->
     exists k, forall j, j <> k ->
       nth_error (tbl (exec env (decision_event d b) w)) j = nth_error (tbl w) j).
Proof.
  assert (Hrun : forall w, fresh_ids w -> fresh_ids (run env es w)).
  { induction es as [|e es IH]; intros w Hw; simpl; [exact Hw|].
    apply IH. now apply exec_keeps_fresh_ids. }
  split; [|split].
  - apply Hrun. split; [intros r [] | constructor].
  - exact Hrun.
  - intros w d b [_ Hnd].
    destruct (decision_cases env d b w) as [_ [H|H]].
    + destruct H as [msg [r [-> _]]]. exists 0%nat. reflexivity.
    + destruct H as [n [X [r1 [r2 [r3 [_ [HX [-> _]]]]]]]].
      unfold find_row in HX. apply find_some in HX. destruct HX as [HX HXn].
      apply In_nth_error in HX. destruct HX as [k Hk]. exists k.
      intros j Hj. rewrite nth_error_update_where.
      destruct (nth_error (tbl w) j) as [r|] eqn:Hr; [simpl|reflexivity].
      destruct (Z.eqb_spec (id r) n) as [E|_]; [|reflexivity].
      exfalso. apply Hj. apply Z.eqb_eq in HXn.
      assert (Hi : nth_error (map id (tbl w)) j = Some n)
        by (rewrite nth_error_map, Hr; simpl; now rewrite E).
      assert (Hi' : nth_error (map id (tbl w)) k = Some n)
        by (rewrite nth_error_map, Hk; simpl; now rewrite HXn).
      rewrite NoDup_nth_error in Hnd. apply Hnd; [|congruence].
      apply nth_error_Some. congruence.
Qed.

(** X13: no handler removes a row or moves the sequence back: an event
    leaves the table with the same number of rows or one more, advances the
    sequence by at most one and sends at most two statements; only the
    submission handler can add a row or advance the sequence. *)
Theorem rows_are_never_deleted env e w :
  let w' := exec env e w in
  (List.length (tbl w) <= List.length (tbl w') <= S (List.length (tbl w)))%nat /\
  messages_id_seq w <= messages_id_seq w' <= messages_id_seq w + 1 /\
  (stmts w <= stmts w' <= stmts w + 2)%nat /\
  ((forall b v, e <> on_impression_id b v) ->
   List.length (tbl w') = List.length (tbl w) /\ messages_id_seq w' = messages_id_seq w).
Proof.
  assert (Hlen : forall z f t, List.length (update_where z f t) = List.length t)
    by (intros; unfold update_where; apply length_map).
  assert (Hdec : forall d b,
            List.length (tbl (exec env (decision_event d b) w)) = List.length (tbl w) /\
            messages_id_seq (exec env (decision_event d b) w) = messages_id_seq w).
  { intros d b. destruct (decision_cases env d b w) as [Hseq [H|H]].
    - destruct H as [msg [r [-> _]]]. auto.
    - destruct H as [n [X [r1 [r2 [r3 [_ [_ [-> _]]]]]]]]. rewrite Hlen. auto. }
  destruct e as [b|b|b|b|b v]; cbv zeta.
  - destruct (Hdec Accept b) as [Hl Hs]. pose proof (decision_stmts env Accept b w) as Hq.
    cbn [decision_event] in *. rewrite Hl, Hs. repeat split; lia.
  - destruct (Hdec Deny b) as [Hl Hs]. pose proof (decision_stmts env Deny b w) as Hq.
    cbn [decision_event] in *. rewrite Hl, Hs. repeat split; lia.
  - destruct (shortcut_store env b w) as [Hs [Hq _]].
    rewrite delete_me_tbl, Hs, Hq. repeat split; lia.
  - destruct (shortcut_store env b w) as [_ [_ [Hs Hq]]].
    rewrite reply_impression_tbl, Hs, Hq. repeat split; lia.
  - destruct (impression_id_store env b v w)
      as [Hq [[Ht Hs] | [Hs [th [ch [_ [_ Ht]]]]]]].
    + rewrite Ht. repeat split; try lia;
      exfalso; match goal with H : forall b v, _ <> _ |- _ => apply (H b v); reflexivity end.
    + assert (Hl : List.length (tbl (exec env (on_impression_id b v) w))
                   = S (List.length (tbl w))).
      { destruct Ht as [-> | [ts ->]]; rewrite ?Hlen, length_app; simpl; lia. }
      rewrite Hl, Hs. repeat split; try lia;
      exfalso; match goal with H : forall b v, _ <> _ |- _ => apply (H b v); reflexivity end.
Qed.

(** X14: when the ids are fresh, no event changes review_message_ts
    of a row that is already in the table: the column is written only by the
    submission that inserted the row. *)
Theorem review_message_ts_never_rewritten env e w k r :
  fresh_ids w ->
  nth_error (tbl w) k = Some r ->
  exists r',
    nth_error (tbl (exec env e w)) k = Some r' /\
    review_message_ts r' = review_message_ts r.
Proof.
  intros Hw Hr.
  assert (Hin : In r (tbl w)) by (eapply nth_error_In; eassumption).
  assert (Hdec : forall d b, exists r',
            nth_error (tbl (exec env (decision_event d b) w)) k = Some r' /\
            review_message_ts r' = review_message_ts r).
  { intros d b. destruct (decision_cases env d b w) as [_ [H|H]].
    - destruct H as [msg [rp [-> _]]]. eauto.
    - destruct H as [n [X [r1 [r2 [r3 [_ [_ [-> _]]]]]]]].
      rewrite nth_error_update_where, Hr. simpl.
      destruct (id r =? n); eexists; split; reflexivity. }
  destruct e as [b|b|b|b|b v].
  - exact (Hdec Accept b).
  - exact (Hdec Deny b).
  - rewrite delete_me_tbl. eauto.
  - rewrite reply_impression_tbl. eauto.
  - assert (Hk : (k < List.length (tbl w))%nat) by (apply nth_error_Some; congruence).
    destruct (impression_id_store env b v w)
      as [_ [[-> _] | [_ [th [ch [_ [_ [-> | [ts ->]]]]]]]]].
    + eauto.
    + rewrite nth_error_app1 by exact Hk. eauto.
    + rewrite nth_error_update_where, nth_error_app1, Hr by exact Hk. simpl.
      destruct (Z.eqb_spec (id r) (messages_id_seq w)) as [E|_].
      * elim (fresh_ids_lt w r Hw Hin E).
      * eauto.
Qed.

Lemma review_message_ts_never_rewritten_witness :
  let env := scenario_env None [] slack_up in
  let w := submitted env in
  exists r r',
    nth_error (tbl w) 0 = Some r /\
    review_message_ts r = Some "1700000001.000200" /\
    nth_error (tbl (exec env (on_accept_impression R1) w)) 0 = Some r' /\
    status r' = "accepted" /\
    review_message_ts r' = review_message_ts r.
Proof.
  intros env w.
  pose (X := mkRow 1 "f89412c11bdc0ab44f99f92d5e9a3c5e" "nice job" "pending"
               1000 None (Some "1700000001.000200")
               (Some "1700000000.000100") (Some "C02A6BRM2JD")).
  assert (HX : nth_error (tbl w) 0 = Some X) by (vm_compute; reflexivity).
  assert (Hw : fresh_ids w).
  { split.
    - vm_compute. intros r [<- | []]. reflexivity.
    - vm_compute. constructor; [intros [] | constructor]. }
  destruct (review_message_ts_never_rewritten env (on_accept_impression R1) w 0%nat X Hw HX)
    as [r' [Hr' Hts]].
  exists X, r'. split; [exact HX|]. split; [reflexivity|]. split; [exact Hr'|].
  split; [|exact Hts].
  assert (E : nth_error (tbl (exec env (on_accept_impression R1) w)) 0
              = Some (set_status "accepted" 1003 X)) by (vm_compute; reflexivity).
  rewrite E in Hr'. injection Hr' as <-. reflexivity.
Defined.

(** ** Submissions *)

Lemma find_row_snoc z t r :
  (forall x, In x t -> id x <> z) -> id r = z -> find_row z (t ++ [r])%list = Some r.
Proof.
  intros H E. unfold find_row. induction t as [|a t IH]; simpl.
  - now rewrite E, Z.eqb_refl.
  - destruct (Z.eqb_spec (id a) z) as [Ea|_].
    + elim (H a (or_introl eq_refl) Ea).
    + apply IH. intros x Hx. apply H. now right.
Qed.

Lemma length_snoc {A} (l : list A) a : List.length (l ++ [a])%list = S (List.length l).
Proof. rewrite length_app. simpl. lia. Qed.

(** Rewrite with the answers assumed in the context, then go on running. *)
Ltac served :=
  repeat (rewrite ?length_snoc, ?varchar_md5_hex;
          repeat match goal with
                 | H : pg_fault _ _ = None |- _ => rewrite H
                 | H : varchar _ _ = Some _ |- _ => rewrite H
                 | H : varchar_opt _ _ = Some _ |- _ => rewrite H
                 | H : slack_api _ _ _ = _ |- _ => rewrite H
                 | H : pg_int4 _ = Some _ |- _ => rewrite H
                 | H : (_ <? _) = true |- _ => rewrite H
                 | H : parseInt _ _ = _ |- _ => rewrite H
                 end;
          progress run_handler).

Lemma pg_int4_in_range z : - 2 ^ 31 <= z < 2 ^ 31 -> pg_int4 (Num z) = Some z.
Proof.
  intros [H1 H2]. unfold pg_int4.
  apply Z.leb_le in H1. apply Z.ltb_lt in H2. now rewrite H1, H2.
Qed.

(** The run of a submission in which everything is served. *)
Lemma submission_served env b v w th ch ts ts' :
  - 2 ^ 31 <= messages_id_seq w < 2 ^ 31 ->
  pg_fault env (stmts w) = None ->
  pg_fault env (S (stmts w)) = None ->
  varchar 50 (form_thread v) = Some th ->
  varchar_opt 50 (form_channel v) = Some ch ->
  slack_api env (S (List.length (effects w))) (submission_card env b v w) = ok ts ->
  varchar 50 ts = Some ts' ->
  let w' := exec env (on_impression_id b v) w in
  tbl w' = update_where (messages_id_seq w) (set_review_message_ts ts')
             (tbl w ++ [submitted_row env b v w th ch None])%list /\
  messages_id_seq w' = messages_id_seq w + 1 /\
  stmts w' = S (S (stmts w)) /\
  exists r r',
    effects w' =
      (effects w ++
       Ack :: Slack (submission_card env b v w) (ok ts) ::
       Slack (chat_postEphemeral (SLACK_BOT_TOKEN env) (form_channel v)
                                 (body_user_id b) confirmation) r ::
       match r with
       | ok _ => []
       | failed msg =>
           [ ConsoleError "Error submitting impression:" msg;
             Slack (chat_postEphemeral (SLACK_BOT_TOKEN env) (form_channel v)
                                       (body_user_id b) failure_notice) r' ]
       end)%list.
Proof.
  intros Hseq Hq0 Hq1 Hth Hch Hcard Hts.
  assert (Hlt : (messages_id_seq w <? 2 ^ 31) = true) by (apply Z.ltb_lt; lia).
  assert (Hi : pg_int4 (Num (messages_id_seq w)) = Some (messages_id_seq w))
    by (apply pg_int4_in_range; exact Hseq).
  unfold form_thread, form_channel, submission_card, review_card, confirmation,
    failure_notice in *.
  run_handler. served.
  repeat case_env; repeat split;
    first [ eexists (ok _); exists (ok ""); log_eq
          | eexists (failed _); eexists; log_eq ].
Qed.

(** The same in a world whose ids are fresh: only the new row is written. *)
Lemma submission_appends_row env b v w th ch ts ts' :
  fresh_ids w ->
  - 2 ^ 31 <= messages_id_seq w < 2 ^ 31 ->
  pg_fault env (stmts w) = None ->
  pg_fault env (S (stmts w)) = None ->
  varchar 50 (form_thread v) = Some th ->
  varchar_opt 50 (form_channel v) = Some ch ->
  slack_api env (S (List.length (effects w))) (submission_card env b v w) = ok ts ->
  varchar 50 ts = Some ts' ->
  let w' := exec env (on_impression_id b v) w in
  let row := submitted_row env b v w th ch (Some ts') in
  tbl w' = (tbl w ++ [row])%list /\
  find_row (messages_id_seq w) (tbl w') = Some row /\
  stmts w' = S (S (stmts w)) /\
  messages_id_seq w' = messages_id_seq w + 1.
Proof.
  intros Hw Hseq Hq0 Hq1 Hth Hch Hcard Hts w' row.
  destruct (submission_served env b v w th ch ts ts' Hseq Hq0 Hq1 Hth Hch Hcard Hts)
    as [Ht [Hs [Hst _]]]. fold w' in Ht, Hs, Hst.
  assert (Hfresh : forall x, In x (tbl w) -> id x <> messages_id_seq w)
    by (intros x Hx; now apply fresh_ids_lt).
  rewrite update_where_snoc in Ht by (auto; reflexivity).
  split; [exact Ht|]. split; [|split; [exact Hst | exact Hs]].
  rewrite Ht. apply find_row_snoc; [exact Hfresh | reflexivity].
Qed.

(** X15: a submission for which the INSERT and the UPDATE are served and
    the review card is posted appends exactly one row: pending, with the
    submitter's digest, the text of the form, the thread and channel of the
    form's metadata and the reference of the card; its id is the value the
    sequence had, which then advances by one.  The handler posts the card,
    then the confirmation to the submitter; if the confirmation is refused,
    the error is logged and the failure notice is sent although the row
    stays. *)
Theorem submission_is_stored env b v w th ch ts ts' :
  fresh_ids w ->
  - 2 ^ 31 <= messages_id_seq w < 2 ^ 31 ->
  pg_fault env (stmts w) = None ->
  pg_fault env (S (stmts w)) = None ->
  varchar 50 (form_thread v) = Some th ->
  varchar_opt 50 (form_channel v) = Some ch ->
  slack_api env (S (List.length (effects w))) (submission_card env b v w) = ok ts ->
  varchar 50 ts = Some ts' ->
  let w' := exec env (on_impression_id b v) w in
  let row := submitted_row env b v w th ch (Some ts') in
  tbl w' = (tbl w ++ [row])%list /\
  find_row (messages_id_seq w) (tbl w') = Some row /\
  messages_id_seq w' = messages_id_seq w + 1 /\
  exists r r',
    effects w' =
      (effects w ++
       Ack :: Slack (submission_card env b v w) (ok ts) ::
       Slack (chat_postEphemeral (SLACK_BOT_TOKEN env) (form_channel v)
                                 (body_user_id b) confirmation) r ::
       match r with
       | ok _ => []
       | failed msg =>
           [ ConsoleError "Error submitting impression:" msg;
             Slack (chat_postEphemeral (SLACK_BOT_TOKEN env) (form_channel v)
                                       (body_user_id b) failure_notice) r' ]
       end)%list.
Proof.
  intros Hw Hseq Hq0 Hq1 Hth Hch Hcard Hts w' row.
  destruct (submission_served env b v w th ch ts ts' Hseq Hq0 Hq1 Hth Hch Hcard Hts)
    as [Ht [Hs [_ He]]]. fold w' in Ht, Hs, He.
  assert (Hfresh : forall x, In x (tbl w) -> id x <> messages_id_seq w)
    by (intros x Hx; now apply fresh_ids_lt).
  rewrite update_where_snoc in Ht by (auto; reflexivity).
  split; [exact Ht|]. split; [|split; [exact Hs | exact He]].
  rewrite Ht. apply find_row_snoc; [exact Hfresh | reflexivity].
Qed.

Lemma submission_is_stored_witness :
  let env := scenario_env None [] slack_up in
  let w' := exec env (on_impression_id U1 nice_job) init_world in
  tbl w' = [ mkRow 1 "f89412c11bdc0ab44f99f92d5e9a3c5e" "nice job" "pending"
               1000 None (Some "1700000001.000200")
               (Some "1700000000.000100") (Some "C02A6BRM2JD") ] /\
  messages_id_seq w' = 2.
Proof.
  intros env.
  destruct (submission_is_stored env U1 nice_job init_world
              "1700000000.000100" (Some "C02A6BRM2JD")
              "1700000001.000200" "1700000001.000200"
              init_world_fresh_ids)
    as [Ht [_ [Hs _]]]; try (vm_compute; reflexivity).
  - vm_compute. split; [discriminate | reflexivity].
  - split; [exact Ht | exact Hs].
Defined.

(** X16: when the row was inserted but the post of the review card is
    refused, the row stays in the table, pending and without a card; no
    UPDATE is sent, the error is logged and the submitter gets the failure
    notice. *)
Theorem failed_card_post_leaves_pending_row env b v w th ch m :
  messages_id_seq w < 2 ^ 31 ->
  pg_fault env (stmts w) = None ->
  varchar 50 (form_thread v) = Some th ->
  varchar_opt 50 (form_channel v) = Some ch ->
  slack_api env (S (List.length (effects w))) (submission_card env b v w) = failed m ->
  let w' := exec env (on_impression_id b v) w in
  tbl w' = (tbl w ++ [submitted_row env b v w th ch None])%list /\
  stmts w' = S (stmts w) /\
  exists r,
    effects w' =
      (effects w ++
       [ Ack; Slack (submission_card env b v w) (failed m);
         ConsoleError "Error submitting impression:" m;
         Slack (chat_postEphemeral (SLACK_BOT_TOKEN env) (form_channel v)
                                   (body_user_id b) failure_notice) r ])%list.
Proof.
  intros Hseq Hq0 Hth Hch Hcard.
  assert (Hlt : (messages_id_seq w <? 2 ^ 31) = true) by (apply Z.ltb_lt; lia).
  unfold form_thread, form_channel, submission_card, review_card, failure_notice in *.
  run_handler. served.
  repeat case_env; repeat split; eexists; log_eq.
Qed.

Lemma failed_card_post_leaves_pending_row_witness :
  let env := scenario_env None [] slack_no_card in
  let w' := exec env (on_impression_id U1 nice_job) init_world in
  tbl w' = [ mkRow 1 "f89412c11bdc0ab44f99f92d5e9a3c5e" "nice job" "pending"
               1000 None None (Some "1700000000.000100") (Some "C02A6BRM2JD") ] /\
  stmts w' = 1%nat /\
  existsb is_views_open_call (effects w') = false.
Proof.
  intros env.
  destruct (failed_card_post_leaves_pending_row env U1 nice_job init_world
              "1700000000.000100" (Some "C02A6BRM2JD") "channel_not_found")
    as [Ht [Hs [r He]]]; try (vm_compute; reflexivity).
  split; [exact Ht|]. split; [exact Hs|]. cbv zeta. rewrite He. reflexivity.
Defined.

(** ** A submission the store refuses *)

(** X17: when the INSERT fails (the store is down, the sequence is
    exhausted, or the thread or channel of the metadata is longer than 50
    characters) the table is unchanged, one statement was sent, no card is
    posted, and the handler logs the error and sends the failure notice. *)
Theorem refused_insert_rejects_submission env b v w :
  pg_fault env (stmts w) <> None \/ 2 ^ 31 <= messages_id_seq w \/
  varchar 50 (form_thread v) = None \/ varchar_opt 50 (form_channel v) = None ->
  let w' := exec env (on_impression_id b v) w in
  tbl w' = tbl w /\
  stmts w' = S (stmts w) /\
  exists m r,
    effects w' =
      (effects w ++
       [ Ack; ConsoleError "Error submitting impression:" m;
         Slack (chat_postEphemeral (SLACK_BOT_TOKEN env) (form_channel v)
                                   (body_user_id b) failure_notice) r ])%list.
Proof.
  intros H. unfold form_thread, form_channel, failure_notice in *.
  run_handler. rewrite varchar_md5_hex.
  destruct (pg_fault env (stmts w)) eqn:Hq;
    cbn [tbl effects stmts messages_id_seq fst snd await].
  { repeat case_env; repeat split; do 2 eexists; log_eq. }
  destruct (messages_id_seq w <? 2 ^ 31) eqn:Hs;
    cbn [tbl effects stmts messages_id_seq fst snd await].
  2: { repeat case_env; repeat split; do 2 eexists; log_eq. }
  apply Z.ltb_lt in Hs.
  destruct (varchar 50 _) eqn:Hth;
    cbn [tbl effects stmts messages_id_seq fst snd await].
  2: { repeat case_env; repeat split; do 2 eexists; log_eq. }
  destruct (varchar_opt 50 _) eqn:Hch;
    cbn [tbl effects stmts messages_id_seq fst snd await].
  2: { repeat case_env; repeat split; do 2 eexists; log_eq. }
  exfalso. destruct H as [H | [H | [H | H]]]; try discriminate H.
  - now apply H.
  - lia.
Qed.

Lemma refused_insert_rejects_submission_witness :
  let env := scenario_env None [] slack_up in
  let w' := exec env (on_impression_id U1 long_thread) init_world in
  varchar 50 (form_thread long_thread) = None /\
  tbl w' = [] /\ stmts w' = 1%nat /\
  exists m r,
    effects w' =
      [ Ack; ConsoleError "Error submitting impression:" m;
        Slack (chat_postEphemeral (SLACK_BOT_TOKEN env) (form_channel long_thread)
                                  (body_user_id U1) failure_notice) r ].
Proof.
  intros env.
  assert (H : varchar 50 (form_thread long_thread) = None) by (vm_compute; reflexivity).
  split; [exact H|].
  exact (refused_insert_rejects_submission env U1 long_thread init_world
           (or_intror (or_intror (or_introl H)))).
Defined.

Lemma nth_error_map_snoc {A B} (f : A -> B) (t : list A) (x : A) :
  nth_error (map f (t ++ [x])%list) (List.length t) = Some (f x).
Proof.
  rewrite nth_error_map, nth_error_app2, Nat.sub_diag by lia. reflexivity.
Qed.

(** X18: the confirmation is sent only for a stored submission: if the
    submission handler sends it, then the review card was posted and the
    table has one more row, pending, with the text of the form and the
    reference of the card. *)
Theorem confirmation_means_stored env b v w r :
  let w' := exec env (on_impression_id b v) w in
  (exists new,
     effects w' = (effects w ++ new)%list /\
     In (Slack (chat_postEphemeral (SLACK_BOT_TOKEN env) (form_channel v)
                                   (body_user_id b) confirmation) r) new) ->
  (exists ts, In (Slack (submission_card env b v w) (ok ts)) (effects w')) /\
  exists X,
    nth_error (tbl w') (List.length (tbl w)) = Some X /\
    List.length (tbl w') = S (List.length (tbl w)) /\
    message X = view_dreamy_input_value v /\
    status X = "pending" /\
    review_message_ts X <> None.
Proof.
  unfold form_channel, submission_card, review_card, confirmation.
  cbv zeta. run_handler. rewrite varchar_md5_hex.
  repeat case_env; intros [new [Hnew Hin]];
    rewrite <- ?app_assoc in Hnew; apply app_inv_head in Hnew; subst new;
    cbn [app In] in Hin;
    repeat match goal with
           | H : _ \/ _ |- _ => destruct H as [H | H]
           | H : False |- _ => destruct H
           | H : Ack = _ |- _ => discriminate H
           | H : ConsoleError _ _ = _ |- _ => discriminate H
           | H : Slack (chat_postMessage _ _ _ _ _) _ = Slack (chat_postEphemeral _ _ _ _) _ |- _ =>
               discriminate H
           | H : Slack (chat_postEphemeral _ _ _ _) _ = Slack (chat_postEphemeral _ _ _ _) _ |- _ =>
               try discriminate H; clear H
           end.
  all: match goal with
       | H : pg_int4 (Num _) = Some _ |- _ => apply pg_int4_Num in H; subst
       end.
  all: split;
       [ eexists; rewrite <- ?app_assoc; apply in_or_app; right; right; left; reflexivity
       | unfold update_where; rewrite nth_error_map_snoc, length_map, length_snoc;
         cbn [id]; rewrite Z.eqb_refl;
         eexists; split; [reflexivity|]; split; [reflexivity|];
         repeat split; discriminate ].
Qed.

Lemma confirmation_means_stored_witness :
  let env := scenario_env None [] slack_up in
  let w' := exec env (on_impression_id U1 nice_job) init_world in
  (exists ts, In (Slack (submission_card env U1 nice_job init_world) (ok ts)) (effects w')) /\
  exists X,
    nth_error (tbl w') 0 = Some X /\
    message X = "nice job" /\ status X = "pending" /\ review_message_ts X <> None.
Proof.
  intros env.
  assert (H : exists new,
            effects (exec env (on_impression_id U1 nice_job) init_world)
            = (effects init_world ++ new)%list /\
            In (Slack (chat_postEphemeral (SLACK_BOT_TOKEN env) (form_channel nice_job)
                                          (body_user_id U1) confirmation)
                      (ok "1700000001.000200")) new).
  { eexists. split; [vm_compute; reflexivity|]. right; right; left. reflexivity. }
  destruct (confirmation_means_stored env U1 nice_job init_world _ H)
    as [Hcard [X [HX [_ [Hm [Hs Hr]]]]]].
  split; [exact Hcard|]. exists X. repeat split; assumption.
Defined.

(** X19: the id stored in the buttons of a review card leads back to the
    row of its submission: after a served submission, a decision whose
    action value is a value of the card's buttons sets the status and
    reviewed_at of exactly that row and leaves the rest of the table as it
    was. *)
Theorem button_leads_back env b v w th ch ts ts' d b2 :
  fresh_ids w ->
  - 2 ^ 31 <= messages_id_seq w < 2 ^ 31 ->
  pg_fault env (stmts w) = None ->
  pg_fault env (S (stmts w)) = None ->
  varchar 50 (form_thread v) = Some th ->
  varchar_opt 50 (form_channel v) = Some ch ->
  slack_api env (S (List.length (effects w))) (submission_card env b v w) = ok ts ->
  varchar 50 ts = Some ts' ->
  In (body_action_value b2) (button_values (submission_card env b v w)) ->
  parseInt env (toString (messages_id_seq w)) = Num (messages_id_seq w) ->
  pg_fault env (S (S (stmts w))) = None ->
  pg_fault env (S (S (S (stmts w)))) = None ->
  let w1 := exec env (on_impression_id b v) w in
  let w2 := exec env (decision_event d b2) w1 in
  tbl w2 =
    (tbl w ++
     [ set_status (decision_status d) (NOW env (S (S (S (stmts w)))))
         (submitted_row env b v w th ch (Some ts')) ])%list.
Proof.
  intros Hw Hseq Hq0 Hq1 Hth Hch Hcard Hts Hbtn Hp Hq2 Hq3 w1 w2.
  destruct (submission_appends_row env b v w th ch ts ts'
              Hw Hseq Hq0 Hq1 Hth Hch Hcard Hts) as [Ht [Hf [Hst _]]].
  fold w1 in Ht, Hf, Hst.
  assert (Hval : body_action_value b2 = toString (messages_id_seq w)).
  { cbn in Hbtn. destruct Hbtn as [E | [E | []]]; now rewrite <- E. }
  rewrite <- Hval in Hp.
  assert (Hfresh : forall x, In x (tbl w) -> id x <> messages_id_seq w)
    by (intros x Hx; now apply fresh_ids_lt).
  destruct (decision_commits env d b2 w1 (messages_id_seq w) _ Hp Hf
              (pg_int4_in_range _ Hseq)) as [Ht2 _].
  - now rewrite Hst.
  - now rewrite Hst.
  - fold w2 in Ht2. rewrite Ht2, Ht, Hst.
    apply update_where_snoc; [exact Hfresh | reflexivity].
Qed.

Lemma button_leads_back_witness :
  let env := scenario_env None [] slack_up in
  let w1 := exec env (on_impression_id U1 nice_job) init_world in
  let w2 := exec env (on_accept_impression R1) w1 in
  In (body_action_value R1) (button_values (submission_card env U1 nice_job init_world)) /\
  tbl w2 = [ mkRow 1 "f89412c11bdc0ab44f99f92d5e9a3c5e" "nice job" "accepted"
               1000 (Some 1003) (Some "1700000001.000200")
               (Some "1700000000.000100") (Some "C02A6BRM2JD") ].
Proof.
  intros env.
  assert (Hin : In (body_action_value R1)
                   (button_values (submission_card env U1 nice_job init_world)))
    by (left; reflexivity).
  split; [exact Hin|].
  apply (button_leads_back env U1 nice_job init_world
           "1700000000.000100" (Some "C02A6BRM2JD")
           "1700000001.000200" "1700000001.000200" Accept R1
           init_world_fresh_ids);
    try exact Hin; try (vm_compute; reflexivity).
  vm_compute. split; [discriminate | reflexivity].
Defined.

(** ** The reply shortcut *)

Lemma is_honest_env_channel_true env c :
  is_honest_env_channel env c = true <-> HONEST_IMPRESSIONS_CHANNEL_ID env = Some c.
Proof.
  unfold is_honest_env_channel. destruct (HONEST_IMPRESSIONS_CHANNEL_ID env) as [s|].
  - rewrite String.eqb_eq. split; congruence.
  - split; discriminate.
Qed.

(** X20: the reply shortcut opens the form exactly when the user is not on
    the deny-list and the channel is one of the three permitted channels or
    the configured HONEST_IMPRESSIONS_CHANNEL_ID, or the user is the override
    identity; it then makes no other call. *)
Theorem form_opens_iff env b w :
  exists new,
    effects (exec env (on_reply_impression b) w) = (effects w ++ new)%list /\
    (existsb is_views_open_call new = true <->
     ~ In (body_user_id b) (banList env) /\
     (In (body_channel_id b) permitted_channels \/
      HONEST_IMPRESSIONS_CHANNEL_ID env = Some (body_channel_id b) \/
      In (body_user_id b) override_users)) /\
    (existsb is_views_open_call new = true ->
     exists r, new = [Ack; Slack (views_open (body_trigger_id b) (impression_modal b)) r]).
Proof.
  run_handler.
  destruct (includes (banList env) (body_user_id b)) eqn:Hban;
    destruct (includes permitted_channels (body_channel_id b)) eqn:Hperm;
    destruct (is_honest_env_channel env (body_channel_id b)) eqn:Hhon;
    destruct (includes override_users (body_user_id b)) eqn:Hov;
    cbn [negb andb tbl effects stmts messages_id_seq fst snd await].
  all: repeat match goal with
         | H : includes _ _ = true |- _ => apply includes_In in H
         | H : includes _ _ = false |- _ => apply includes_not_In in H
         | H : is_honest_env_channel _ _ = true |- _ =>
             apply is_honest_env_channel_true in H
         | H : is_honest_env_channel _ _ = false |- _ =>
             assert (HONEST_IMPRESSIONS_CHANNEL_ID env <> Some (body_channel_id b))
               by (intros E; apply is_honest_env_channel_true in E; congruence);
             clear H
         end.
  all: repeat case_env; eexists; (split; [log_eq|]); cbn [existsb is_views_open_call orb].
  all: split; [split; [try discriminate; intros _; tauto | intros; tauto || reflexivity]|].
  all: try discriminate; intros _; eexists; reflexivity.
Qed.

(** ** The metadata of the form *)

Lemma split_no_sep c s : contains c s = false -> split c s = [s].
Proof.
  induction s as [|a s IH]; simpl; [reflexivity|].
  destruct (Ascii.eqb a c); [discriminate|]. simpl. intros H.
  now rewrite (IH H).
Qed.

Lemma split_app_sep c s t :
  contains c s = false ->
  split c (s ++ String c t) = s :: split c t.
Proof.
  induction s as [|a s IH]; simpl.
  - intros _. now rewrite Ascii.eqb_refl.
  - destruct (Ascii.eqb a c); [discriminate|]. simpl. intros H.
    now rewrite (IH H).
Qed.

(** X21: the metadata the shortcut stores in the form is read back by the
    submission handler: when neither the message reference nor the channel
    id contains the separator, the thread and channel the handler
    extracts are the ones of the shortcut's event. *)
Theorem metadata_round_trip b text :
  contains "|"%char (body_message_ts_top b) = false ->
  contains "|"%char (body_channel_id b) = false ->
  let view := mkView text (private_metadata (impression_modal b)) in
  form_thread view = body_message_ts_top b /\
  form_channel view = Some (body_channel_id b).
Proof.
  intros Hts Hch. unfold form_thread, form_channel, impression_modal.
  cbn [view_private_metadata private_metadata].
  change (body_message_ts_top b ++ "|" ++ body_channel_id b)
    with (body_message_ts_top b ++ String "|"%char (body_channel_id b)).
  rewrite (split_app_sep _ _ _ Hts), (split_no_sep _ _ Hch). split; reflexivity.
Qed.

Lemma metadata_round_trip_witness :
  let view := mkView "nice job" (private_metadata (impression_modal U1)) in
  view = nice_job /\
  form_thread view = "1700000000.000100" /\ form_channel view = Some "C02A6BRM2JD".
Proof.
  split; [reflexivity|].
  exact (metadata_round_trip U1 "nice job" eq_refl eq_refl).
Defined.

(** ** The relay channel and the gate *)

(** X22: a reply made in the channel accepted impressions are
    posted to, by a user who is neither on the deny-list nor the override
    identity, opens the form when HONEST_IMPRESSIONS_CHANNEL_ID is set and
    not empty, and is answered by the redirect notice when the channel is
    only the built-in default. *)
Theorem relay_channel_opens_form_iff_configured env b w :
  body_channel_id b = honest_channel env ->
  ~ In (body_user_id b) (banList env) ->
  ~ In (body_user_id b) override_users ->
  exists r,
    effects (exec env (on_reply_impression b) w) =
      (effects w ++
       [ Ack;
         if truthy (HONEST_IMPRESSIONS_CHANNEL_ID env)
         then Slack (views_open (body_trigger_id b) (impression_modal b)) r
         else Slack (private_notice env b "Post the honest impression in <#C029QJD8M0D>") r ])%list.
Proof.
  intros Hc Hban Hov.
  apply includes_not_In in Hban. apply includes_not_In in Hov.
  run_handler. unfold private_notice. rewrite Hban, Hov, Hc. unfold honest_channel, js_or, is_honest_env_channel, truthy.
  destruct (HONEST_IMPRESSIONS_CHANNEL_ID env) as [s|].
  - destruct (String.eqb_spec s "") as [->|Hne];
      cbn [negb andb tbl effects stmts messages_id_seq fst snd await].
    + change (includes permitted_channels "C029QJD8M0D") with false.
      change (String.eqb "" "C029QJD8M0D") with false.
      cbn [negb andb]. repeat case_env; eexists; log_eq.
    + rewrite String.eqb_refl, andb_false_r. cbn [negb andb].
      repeat case_env; eexists; log_eq.
  - change (includes permitted_channels "C029QJD8M0D") with false.
    cbn [negb andb tbl effects stmts messages_id_seq fst snd await].
    repeat case_env; eexists; log_eq.
Qed.

Lemma relay_channel_opens_form_iff_configured_witness :
  (exists r,
     effects (exec (scenario_env (Some "C029QJD8M0D") [] slack_up)
                   (on_reply_impression U1_relay) init_world)
     = [Ack; Slack (views_open "trigger-1" (impression_modal U1_relay)) r]) /\
  (exists r,
     effects (exec (scenario_env None [] slack_up)
                   (on_reply_impression U1_relay) init_world)
     = [Ack; Slack (private_notice (scenario_env None [] slack_up) U1_relay
                      "Post the honest impression in <#C029QJD8M0D>") r]).
Proof.
  split.
  - apply (relay_channel_opens_form_iff_configured (scenario_env (Some "C029QJD8M0D") [] slack_up)
             U1_relay init_world eq_refl).
    + intros [].
    + intros [H | []]. discriminate H.
  - apply (relay_channel_opens_form_iff_configured (scenario_env None [] slack_up)
             U1_relay init_world eq_refl).
    + intros [].
    + intros [H | []]. discriminate H.
Defined.

(** ** [sendToReviewChannel] *)

(** X8: sendToReviewChannel depends on the submitter's digest only
    through its first eight characters: with two digests that agree on them
    it returns the same result and leaves the same world. *)
Theorem sendToReviewChannel_digest_prefix_only env msg h h' z w :
  substring 0 8 h = substring 0 8 h' ->
  sendToReviewChannel msg h z env w = sendToReviewChannel msg h' z env w.
Proof.
  intros E. unfold sendToReviewChannel, bind, ask. now rewrite E.
Qed.

Lemma sendToReviewChannel_digest_prefix_only_witness :
  let env := scenario_env None [] slack_up in
  Md5.md5_hex "U1" <> "f89412c1ffffffffffffffffffffffff" /\
  sendToReviewChannel "nice job" (Md5.md5_hex "U1") 1 env init_world
  = sendToReviewChannel "nice job" "f89412c1ffffffffffffffffffffffff" 1 env init_world.
Proof.
  intros env. split; [vm_compute; discriminate|].
  apply (sendToReviewChannel_digest_prefix_only env "nice job"
           (Md5.md5_hex "U1") "f89412c1ffffffffffffffffffffffff" 1 init_world).
  vm_compute. reflexivity.
Defined.

(** X7: sendToReviewChannel makes exactly one call, the post of the
    review card, whose two buttons carry the submission's id in decimal.  It
    returns the reference of the card only when the post succeeded and the
    UPDATE was served, and then review_message_ts of the rows with that id
    holds the reference; when it throws, the table is as before, and the
    UPDATE was sent only if the post had succeeded. *)
Theorem sendToReviewChannel_outcome env msg h z w :
  let card := review_card env msg (substring 0 8 h) z in
  let r := slack_api env (List.length (effects w)) card in
  let w' := snd (sendToReviewChannel msg h z env w) in
  effects w' = (effects w ++ [Slack card r])%list /\
  messages_id_seq w' = messages_id_seq w /\
  In (toString z) (button_values card) /\
  match fst (sendToReviewChannel msg h z env w) with
  | Return ts =>
      r = ok ts /\ pg_fault env (stmts w) = None /\ - 2 ^ 31 <= z < 2 ^ 31 /\
      stmts w' = S (stmts w) /\
      exists ts', varchar 50 ts = Some ts' /\
                  tbl w' = update_where z (set_review_message_ts ts') (tbl w)
  | Throw m =>
      tbl w' = tbl w /\
      (r = failed m /\ stmts w' = stmts w \/
       exists ts, r = ok ts /\ stmts w' = S (stmts w))
  end.
Proof.
  cbv zeta. unfold review_card.
  cbv beta iota zeta delta
    [sendToReviewChannel bind ask throw ret update_review_message_ts
     pg_statement get_tbl put_tbl slack add_effect].
  cbn [tbl effects stmts messages_id_seq fst snd await button_values flat_map map
       btn_value app].
  split; [|split; [|split; [now left|]]].
  - repeat case_env; reflexivity.
  - repeat case_env; reflexivity.
  - destruct (slack_api env _ _) as [ts|m] eqn:Hr;
      cbn [tbl effects stmts messages_id_seq fst snd await]; [|now auto].
    destruct (pg_fault env (stmts w)) eqn:Hq;
      cbn [tbl effects stmts messages_id_seq fst snd await]; [now eauto|].
    destruct (pg_int4 (Num z)) as [z'|] eqn:Hz;
      cbn [tbl effects stmts messages_id_seq fst snd await]; [|now eauto].
    assert (z' = z) by (now apply pg_int4_Num in Hz). subst z'.
    destruct (varchar 50 ts) as [ts'|] eqn:Hv;
      cbn [tbl effects stmts messages_id_seq fst snd await]; [|now eauto].
    assert (Hrange : - 2 ^ 31 <= z < 2 ^ 31).
    { unfold pg_int4 in Hz.
      destruct (- 2 ^ 31 <=? z) eqn:E1; destruct (z <? 2 ^ 31) eqn:E2;
        try discriminate Hz.
      apply Z.leb_le in E1. apply Z.ltb_lt in E2. now split. }
    repeat split; try apply Hrange. eauto.
Qed.

(** ** Decisions *)

(** X23: the review card is edited only after the decision is stored:
    if a decision handler edits the card, the submission exists, its status
    and reviewed_at were written and, for an accept, the relay into the
    thread succeeded. *)
Theorem card_edit_means_committed env d b w :
  let w' := exec env (decision_event d b) w in
  (exists new, effects w' = (effects w ++ new)%list /\ existsb is_card_edit new = true) ->
  exists n X,
    parseInt env (body_action_value b) = Num n /\
    find_row n (tbl w) = Some X /\
    tbl w' = update_where n (set_status (decision_status d) (NOW env (S (stmts w)))) (tbl w) /\
    (d = Accept -> exists ts, In (Slack (relay env X) (ok ts)) (effects w')).
Proof.
  intros w' [new [Hnew Hedit]]. subst w'.
  destruct (decision_cases env d b w) as [_ [H|H]].
  - exfalso. destruct H as [msg [r [_ [He _]]]].
    rewrite He in Hnew. apply app_inv_head in Hnew. subst new.
    discriminate Hedit.
  - destruct H as [n [X [r1 [r2 [r3 [Hp [Hx [Ht He]]]]]]]].
    exists n, X. repeat split; try assumption.
    intros ->. rewrite He in Hnew. apply app_inv_head in Hnew. subst new.
    rewrite He. cbn [decision_trace] in *.
    destruct r1 as [ts|m].
    + exists ts. apply in_or_app. right. right. now left.
    + discriminate Hedit.
Qed.

Lemma card_edit_means_committed_witness :
  let env := scenario_env None [] slack_up in
  let w := submitted env in
  let w' := exec env (decision_event Accept R1) w in
  existsb is_card_edit (effects w') = true /\
  exists n X,
    parseInt env (body_action_value R1) = Num n /\
    find_row n (tbl w) = Some X /\
    tbl w' = update_where n (set_status "accepted" (NOW env (S (stmts w)))) (tbl w) /\
    exists ts, In (Slack (relay env X) (ok ts)) (effects w').
Proof.
  intros env w w'.
  split; [vm_compute; reflexivity|].
  assert (H : exists new, effects w' = (effects w ++ new)%list /\
                          existsb is_card_edit new = true).
  { eexists. split; [vm_compute; reflexivity|]. reflexivity. }
  destruct (card_edit_means_committed env Accept R1 w H) as [n [X [Hp [HX [Ht Hr]]]]].
  exists n, X. repeat split; try assumption. exact (Hr eq_refl).
Defined.

Lemma filter_relayed_part z t1 t2 :
  map relayed_part t1 = map relayed_part t2 ->
  match filter (fun r => id r =? z) t1, filter (fun r => id r =? z) t2 with
  | [], [] => True
  | X1 :: _, X2 :: _ => thread_ts X1 = thread_ts X2 /\ message X1 = message X2
  | _, _ => False
  end.
Proof.
  revert t2. induction t1 as [|a t1 IH]; intros [|c t2] H; try discriminate H.
  - exact I.
  - cbn [map] in H. inversion H as [[Hid Hth Hm Hrest]]. cbn [filter]. rewrite Hid.
    destruct (id c =? z); [now split | now apply IH].
Qed.

(** X24: what a decision sends to the platform and the console
    depends on the table only through the ids, the threads and the texts of
    its rows: on two tables that agree on these, whatever the digests,
    statuses, dates, card references and channels, it emits the same. *)
Theorem decision_reads_thread_and_text_only env d b w1 w2 :
  map relayed_part (tbl w1) = map relayed_part (tbl w2) ->
  stmts w1 = stmts w2 ->
  List.length (effects w1) = List.length (effects w2) ->
  exists new,
    effects (exec env (decision_event d b) w1) = (effects w1 ++ new)%list /\
    effects (exec env (decision_event d b) w2) = (effects w2 ++ new)%list.
Proof.
  intros Ht Hs Hl.
  destruct d; run_handler; rewrite <- Hs; rewrite ?length_app, <- ?Hl.
  all: destruct (pg_fault env (stmts w1));
    cbn [tbl effects stmts messages_id_seq fst snd await];
    rewrite ?length_app, <- ?Hl;
    [repeat case_env; eexists; split; log_eq|].
  all: destruct (pg_int4 (parseInt env (body_action_value b))) as [z|];
    cbn [tbl effects stmts messages_id_seq fst snd await];
    rewrite ?length_app, <- ?Hl;
    [|repeat case_env; eexists; split; log_eq].
  all: pose proof (filter_relayed_part z _ _ Ht) as Hf;
    destruct (filter (fun r => id r =? z) (tbl w1)) as [|X1 ?];
    destruct (filter (fun r => id r =? z) (tbl w2)) as [|X2 ?];
    try contradiction;
    cbn [tbl effects stmts messages_id_seq fst snd await];
    rewrite ?length_app, <- ?Hl;
    [repeat case_env; eexists; split; log_eq|].
  all: destruct Hf as [Hth Hm]; rewrite <- ?Hth, <- ?Hm.
  all: repeat (case_env; rewrite ?length_app, <- ?Hl; cbn [List.length]);
    eexists; split; log_eq.
Qed.

Lemma decision_reads_thread_and_text_only_witness :
  let env := scenario_env None [] slack_up in
  let w1 := submitted env in
  let w2 := scrubbed w1 in
  map user_hash (tbl w1) <> map user_hash (tbl w2) /\
  exists new,
    effects (exec env (decision_event Accept R1) w1) = (effects w1 ++ new)%list /\
    effects (exec env (decision_event Accept R1) w2) = (effects w2 ++ new)%list.
Proof.
  intros env w1 w2. split; [vm_compute; discriminate|].
  apply (decision_reads_thread_and_text_only env Accept R1 w1 w2);
    vm_compute; reflexivity.
Defined.
